(** * x402 payment gateway: ledger, verifier, risk scorer, gateway, middleware

    A shallow embedding of the payment verification and authorization
    engine of [api/x402]: the SQLAlchemy models and [X402Database]
    operations, [PaymentTracker], [PaymentVerifier], [RiskScorer],
    [UnifiedPaymentGateway] and [X402Middleware].

    Conventions used throughout:
    - [datetime] values are [Z] (seconds); [datetime.utcnow()] is the
      parameter [now] of the operation that reads the clock;
    - [Decimal] values are rationals [Q], and so are the [float] values
      of the ledger, the verifier and the gateway: literals such as [0.1]
      are the exact fractions there; the floats of the risk scorer are
      binary64 numbers (see [RiskScorer]);
    - string columns (status, chain, addresses) are [string];
    - a database session is the record of its three tables, each a list
      of rows in insertion order; [query(...).filter(...).first()] is
      [find];
    - Python exceptions are values of [exn]; code that can raise lives in
      the monad [M], which keeps the state reached when the exception is
      raised (a committed row stays committed). *)

From Stdlib Require Import String Ascii List ZArith QArith Qminmax Bool Lia.
From Stdlib Require Import DecimalString Lqa Qfield Floats Uint63.
Import ListNotations.

Set Warnings "-inexact-float".

Local Open Scope string_scope.
Local Open Scope Z_scope.

(** ** Python runtime *)

Module Py.

(** The exception classes the modelled code raises or catches.  Each
    carries the text that [str(e)] yields. *)
Inductive exn : Type :=
| TypeError (msg : string)
| AttributeError (msg : string)
| ValueError (msg : string)
| KeyError (msg : string)
| TransactionNotFound (msg : string)
| Exception (msg : string).

Definition str_exn (e : exn) : string :=
  match e with
  | TypeError m | AttributeError m | ValueError m
  | KeyError m | TransactionNotFound m | Exception m => m
  end.

Inductive outcome (A : Type) : Type :=
| Return (a : A)
| Raise (e : exn).
Arguments Return {A} a.
Arguments Raise {A} e.

(** Computations over a state [S] that may raise. *)
Definition M (S A : Type) : Type := S -> outcome A * S.

Definition ret {S A} (a : A) : M S A := fun s => (Return a, s).

Definition raise {S A} (e : exn) : M S A := fun s => (Raise e, s).

Definition bind {S A B} (c : M S A) (k : A -> M S B) : M S B :=
  fun s =>
    match c s with
    | (Return a, s') => k a s'
    | (Raise e, s') => (Raise e, s')
    end.

(** [try: c except Exception as e: h e] *)
Definition try_except {S A} (c : M S A) (h : exn -> M S A) : M S A :=
  fun s =>
    match c s with
    | (Return a, s') => (Return a, s')
    | (Raise e, s') => h e s'
    end.

(** Run [c] and hand back how it ended instead of propagating. *)
Definition attempt {S A} (c : M S A) : M S (outcome A) :=
  fun s => let (o, s') := c s in (Return o, s').

(** A call into an external collaborator whose result is already known. *)
Definition lift_outcome {S A} (o : outcome A) : M S A := fun s => (o, s).

(** [str(n)] for an [int]. *)
Definition str_int (n : Z) : string := NilZero.string_of_int (Z.to_int n).

(** [s.lower()] on ASCII text. *)
Definition lower_ascii (c : ascii) : ascii :=
  let n := nat_of_ascii c in
  if (andb (Nat.leb 65 n) (Nat.leb n 90)) then ascii_of_nat (n + 32) else c.

Fixpoint lower (s : string) : string :=
  match s with
  | EmptyString => EmptyString
  | String c r => String (lower_ascii c) (lower r)
  end.

(** [s[-n:]]: the last [n] characters, the whole string when shorter. *)
Definition last_chars (n : nat) (s : string) : string :=
  substring (String.length s - n) n s.

(** [s.startswith(p)] *)
Definition startswith (p s : string) : bool := String.prefix p s.

(** Truthiness of an optional header value: [None] and [''] are falsy. *)
Definition truthy_str (o : option string) : bool :=
  match o with
  | Some s => negb (String.eqb s "")
  | None => false
  end.

(** [int(x)] on a number: truncation toward zero. *)
Definition int_of_Q (q : Q) : Z := Z.quot (Qnum q) (Zpos (Qden q)).

(** [a < b] on rationals, as a boolean. *)
Definition Qlt_bool (a b : Q) : bool := negb (Qle_bool b a).

(** [max(a, b)] and [min(a, b)]: the first argument wins ties. *)
Definition max2 (a b : Q) : Q := if Qlt_bool a b then b else a.
Definition min2 (a b : Q) : Q := if Qlt_bool b a then b else a.

(** [d.get(k)] on a dict kept as an association list. *)
Fixpoint dict_get {V} (d : list (string * V)) (k : string) : option V :=
  match d with
  | [] => None
  | (k', v) :: r => if String.eqb k' k then Some v else dict_get r k
  end.

End Py.

Declare Scope py_scope.
Delimit Scope py_scope with py.
Notation "x <- c ;; k" := (Py.bind c (fun x => k))
  (at level 100, c at next level, right associativity) : py_scope.
Notation "c ;;; k" := (Py.bind c (fun _ => k))
  (at level 100, right associativity) : py_scope.

(** ** SQLAlchemy models ([api/x402/models.py]) *)

Module X402Payment.
Record t : Type := mk {
  id : Z;
  tx_hash : string;
  chain : string;
  amount_usdc : Q;
  from_address : string;
  to_address : string;
  block_number : Z;
  confirmations : Z;
  status : string;
  risk_score : Q;
  requests_allocated : Z;
  requests_used : Z;
  created_at : Z;
  verified_at : option Z;
  expires_at : Z;
  updated_at : Z
}.

(** [requests_remaining] property *)
Definition requests_remaining (p : t) : Z :=
  requests_allocated p - requests_used p.

(** [is_active] property *)
Definition is_active (now : Z) (p : t) : bool :=
  String.eqb (status p) "verified"
  && (now <? expires_at p)
  && (0 <? requests_remaining p).
End X402Payment.

Module X402Token.
Record t : Type := mk {
  id : Z;
  token_hash : string;
  payment_id : Z;
  created_at : Z;
  expires_at : Z;
  last_used_at : option Z
}.

(** [is_valid] property: [self.expires_at > datetime.utcnow()] *)
Definition is_valid (now : Z) (tk : t) : bool := now <? expires_at tk.
End X402Token.

Module X402Usage.
Record t : Type := mk {
  id : Z;
  payment_id : Z;
  endpoint : string;
  method : string;
  status_code : Z;
  response_time_ms : option Z;
  ip_address : option string;
  user_agent : option string;
  created_at : Z
}.
End X402Usage.

(** The session: the three tables of the x402 schema. *)
Record Session : Type := mkSession {
  payments : list X402Payment.t;
  tokens : list X402Token.t;
  usage_records : list X402Usage.t
}.

Definition empty_session : Session := mkSession [] [] [].

(** Autoincrement primary key: one more than the largest key in use. *)
Definition next_id (ids : list Z) : Z := 1 + fold_right Z.max 0 ids.

(** ** Database operations ([api/x402/database.py]) *)

Module X402Database.

Definition get_payment_by_id (db : Session) (payment_id : Z)
  : option X402Payment.t :=
  find (fun p => X402Payment.id p =? payment_id) (payments db).

Definition get_payment_by_tx_hash (db : Session) (tx_hash : string)
  : option X402Payment.t :=
  find (fun p => String.eqb (X402Payment.tx_hash p) tx_hash) (payments db).

Definition create_payment (db : Session) (now : Z)
    (tx_hash chain : string) (amount_usdc : Q)
    (from_address to_address : string) (block_number confirmations : Z)
    (risk_score : Q) (requests_allocated : Z) (expires_at : Z)
  : Session * X402Payment.t :=
  match find (fun p => String.eqb (X402Payment.tx_hash p) tx_hash)
             (payments db) with
  | Some existing => (db, existing)
  | None =>
      let payment :=
        X402Payment.mk
          (next_id (map X402Payment.id (payments db)))
          tx_hash chain amount_usdc from_address to_address
          block_number confirmations "verified" risk_score
          requests_allocated 0 now (Some now) expires_at now in
      (mkSession (payments db ++ [payment]) (tokens db) (usage_records db),
       payment)
  end.

(** The commit of an attribute change made to the row [payment_id]. *)
Fixpoint update_row (payment_id : Z) (f : X402Payment.t -> X402Payment.t)
    (rows : list X402Payment.t) : list X402Payment.t :=
  match rows with
  | [] => []
  | p :: r =>
      if X402Payment.id p =? payment_id then f p :: r
      else p :: update_row payment_id f r
  end.

(** The mutation [update_payment_usage] applies to the row it found. *)
Definition use_one_request (now : Z) (p : X402Payment.t) : X402Payment.t :=
  let used := X402Payment.requests_used p + 1 in
  X402Payment.mk
    (X402Payment.id p) (X402Payment.tx_hash p) (X402Payment.chain p)
    (X402Payment.amount_usdc p) (X402Payment.from_address p)
    (X402Payment.to_address p) (X402Payment.block_number p)
    (X402Payment.confirmations p)
    (if X402Payment.requests_allocated p <=? used
     then "used" else X402Payment.status p)
    (X402Payment.risk_score p) (X402Payment.requests_allocated p)
    used
    (X402Payment.created_at p) (X402Payment.verified_at p)
    (X402Payment.expires_at p) now.

Definition update_payment_usage (db : Session) (now : Z) (payment_id : Z)
  : Session * bool :=
  match get_payment_by_id db payment_id with
  | None => (db, false)
  | Some payment =>
      if X402Payment.requests_allocated payment
           <=? X402Payment.requests_used payment
      then (db, false)
      else
        (mkSession (update_row payment_id (use_one_request now) (payments db))
                   (tokens db) (usage_records db),
         true)
  end.

Definition mark_expired (now : Z) (p : X402Payment.t) : X402Payment.t :=
  X402Payment.mk
    (X402Payment.id p) (X402Payment.tx_hash p) (X402Payment.chain p)
    (X402Payment.amount_usdc p) (X402Payment.from_address p)
    (X402Payment.to_address p) (X402Payment.block_number p)
    (X402Payment.confirmations p) "expired"
    (X402Payment.risk_score p) (X402Payment.requests_allocated p)
    (X402Payment.requests_used p)
    (X402Payment.created_at p) (X402Payment.verified_at p)
    (X402Payment.expires_at p) now.

Definition is_sweepable (now : Z) (p : X402Payment.t) : bool :=
  String.eqb (X402Payment.status p) "verified"
  && (X402Payment.expires_at p <? now).

Definition cleanup_expired_payments (db : Session) (now : Z)
  : Session * Z :=
  let expired_count :=
    Z.of_nat (List.length (filter (is_sweepable now) (payments db))) in
  (mkSession
     (map (fun p => if is_sweepable now p then mark_expired now p else p)
          (payments db))
     (filter (fun tk => negb (X402Token.expires_at tk <? now)) (tokens db))
     (usage_records db),
   expired_count).

Definition create_token (db : Session) (now : Z)
    (token_hash : string) (payment_id : Z) (expires_at : Z)
  : Session * X402Token.t :=
  let token :=
    X402Token.mk (next_id (map X402Token.id (tokens db)))
                 token_hash payment_id now expires_at None in
  (mkSession (payments db) (tokens db ++ [token]) (usage_records db), token).

Definition get_token_by_hash (db : Session) (token_hash : string)
  : option X402Token.t :=
  find (fun tk => String.eqb (X402Token.token_hash tk) token_hash)
       (tokens db).

Definition touch (now : Z) (tk : X402Token.t) : X402Token.t :=
  X402Token.mk (X402Token.id tk) (X402Token.token_hash tk)
               (X402Token.payment_id tk) (X402Token.created_at tk)
               (X402Token.expires_at tk) (Some now).

Fixpoint touch_row (token_id : Z) (now : Z) (rows : list X402Token.t)
  : list X402Token.t :=
  match rows with
  | [] => []
  | tk :: r =>
      if X402Token.id tk =? token_id then touch now tk :: r
      else tk :: touch_row token_id now r
  end.

(** [token.payment]: the row the foreign key points to. *)
Definition token_payment (db : Session) (tk : X402Token.t)
  : option X402Payment.t :=
  get_payment_by_id db (X402Token.payment_id tk).

Definition get_payment_by_token_hash (db : Session) (now : Z)
    (token_hash : string) : Session * option X402Payment.t :=
  match get_token_by_hash db token_hash with
  | None => (db, None)
  | Some token =>
      if negb (X402Token.is_valid now token) then (db, None)
      else
        let db' :=
          mkSession (payments db)
                    (touch_row (X402Token.id token) now (tokens db))
                    (usage_records db) in
        (db', token_payment db' token)
  end.

Definition record_usage (db : Session) (now : Z)
    (payment_id : Z) (endpoint method : string) (status_code : Z)
    (response_time_ms : option Z) (ip_address user_agent : option string)
  : Session * X402Usage.t :=
  let usage :=
    X402Usage.mk (next_id (map X402Usage.id (usage_records db)))
                 payment_id endpoint method status_code
                 response_time_ms ip_address user_agent now in
  (mkSession (payments db) (tokens db) (usage_records db ++ [usage]), usage).

End X402Database.

(** ** Configuration ([api/x402/config.py]) *)

Module X402Config.
Record t : Type := mk {
base_payment_address : string;
ethereum_payment_address : string;
solana_payment_address : string;
price_per_call : Q;
requests_per_dollar : Q;
min_payment_usd : Q;
token_expiry_hours : Z;
endpoint_prices : list (string * Q);
base_confirmations : Z;
ethereum_confirmations : Z;
solana_confirmations : Z;
enabled : bool
}.

(** The defaults [load_x402_config] uses when the environment sets nothing. *)
Definition default : t :=
mk
  "0x742d35Cc6634C0532925a3b8D4B5e3A3A3b7b7b7"
  "0x742d35Cc6634C0532925a3b8D4B5e3A3A3b7b7b7"
  "7xKXtg2CW87d97TXJSDpbD5jBkheTqA83TZRuJosgAsU"
  (1 # 1000) (1000 # 1) (1 # 10) 24
  [("/exploits", 1 # 100); ("/exploits/latest-alert", 1 # 100);
   ("/protocols/risk-score", 2 # 100); ("/wallets/risk-check", 5 # 1000)]
  6 12 32 true.
End X402Config.

(** ** Chain verifier ([api/x402/payment_verifier.py]) *)

Module PaymentVerifier.
Import Py.

Record PaymentVerification : Type := mkVerification {
  is_valid : bool;
  tx_hash : string;
  chain : string;
  amount_usdc : Q;
  from_address : string;
  to_address : string;
  block_number : Z;
  confirmations : Z;
  risk_score : Q;
  error_message : option string
}.

Record ChainConfig : Type := mkChain {
  name : string;
  usdc_contract_address : string;
  required_confirmations : Z;
  usdc_decimals : N;
  chain_id : Z
}.

(** *** What the RPC nodes answer

    A [HexBytes] value is kept as the text its [.hex()] method yields. *)

Record Log : Type := mkLog {
  topics : list string;
  address : string;
  data : string
}.

Record TxReceipt : Type := mkReceipt {
  receipt_status : Z;
  blockNumber : Z;
  logs : list Log
}.

Record Tx : Type := mkTx {
  tx_from : string;
  tx_to : option string
}.

Record Web3 : Type := mkWeb3 {
  get_transaction_receipt : string -> outcome (option TxReceipt);
  get_transaction : string -> outcome Tx;
  eth_block_number : outcome Z;
  get_block_timestamp : Z -> outcome Z;
  (** [web3.keccak(text="Transfer(address,address,uint256)").hex()] *)
  transfer_event_signature : string
}.

(** One entry of [message.instructions] of a parsed Solana transaction.
    [amount] is [Decimal(str(amount_raw))], [None] when that conversion
    raises; the defaults of the [.get] calls are already applied. *)
Record TransferInfo : Type := mkInfo {
  source : string;
  destination : string;
  transfer_amount : option Q;
  token_amount : option Q;
  token_decimals : N
}.

Inductive Parsed : Type :=
| ParsedDict (instruction_type : string) (info : TransferInfo)
| ParsedOther.

Record Instruction : Type := mkInstruction {
  parsed : option Parsed
}.

Record SolanaTx : Type := mkSolanaTx {
  slot : Z;
  meta_err : option string;
  instructions : list Instruction
}.

Record SolanaClient : Type := mkSolana {
  sol_get_transaction : string -> outcome (option SolanaTx);
  sol_get_slot : outcome Z
}.

(** The verifier instance: configuration plus the clients built by
    [setup_chains]. *)
Record t : Type := mkVerifier {
  config : X402Config.t;
  web3_instances : list (string * Web3);
  solana_client : option SolanaClient;
  (** [Signature.from_string]: the exception it raises, if any *)
  signature_from_string : string -> option exn;
  (** [datetime.fromtimestamp]: offset of local time from UTC, seconds *)
  utc_offset : Z;
  (** [str] of a [Decimal] *)
  str_decimal : Q -> string
}.

Definition min_payment_amount (v : t) : Q :=
  X402Config.min_payment_usd (config v).

Definition chains (v : t) : list (string * ChainConfig) :=
  [ ("base",
     mkChain "base" "0x833589fCD6eDb6E08f4c7C32D4f71b54bdA02913"
             (X402Config.base_confirmations (config v)) 6 8453);
    ("ethereum",
     mkChain "ethereum" "0xA0b86991c6218b36c1d19D4a2e9Eb0cE3606eB48"
             (X402Config.ethereum_confirmations (config v)) 6 1);
    ("solana",
     mkChain "solana" "EPjFWdd5AufqSSqeM2qN1xzybapC8G4wEGGkZwyTDt1v"
             (X402Config.solana_confirmations (config v)) 6 (-1)) ].

Definition get_supported_chains (v : t) : list string :=
  map fst (chains v).

Definition get_payment_address (v : t) (chain : string) : string :=
  let cfg := config v in
  if String.eqb chain "base" then X402Config.base_payment_address cfg
  else if String.eqb chain "ethereum"
  then X402Config.ethereum_payment_address cfg
  else if String.eqb chain "solana"
  then X402Config.solana_payment_address cfg
  else "".

(** [_calculate_risk_score]: [min(base_score, 1.0)] with [base_score = 0.1] *)
Definition _calculate_risk_score (tx_hash chain from_address : string) : Q :=
  let base_score := 1 # 10 in
  min2 base_score 1.

(** [int(text, 16)] on the output of [.hex()]: an optional [0x] prefix
    and then at least one hexadecimal digit. *)
Definition hex_digit (c : ascii) : option Z :=
  let n := Z.of_nat (nat_of_ascii c) in
  if (48 <=? n) && (n <=? 57) then Some (n - 48)
  else if (97 <=? n) && (n <=? 102) then Some (n - 87)
  else if (65 <=? n) && (n <=? 70) then Some (n - 55)
  else None.

Fixpoint hex_digits (acc : Z) (s : string) : option Z :=
  match s with
  | EmptyString => Some acc
  | String c r =>
      match hex_digit c with
      | Some d => hex_digits (16 * acc + d) r
      | None => None
      end
  end.

Definition strip_0x (s : string) : string :=
  if String.prefix "0x" s || String.prefix "0X" s
  then substring 2 (String.length s - 2) s else s.

Definition int_base16 (s : string) : outcome Z :=
  let body := strip_0x s in
  match body with
  | EmptyString =>
      Raise (ValueError "invalid literal for int() with base 16")
  | _ =>
      match hex_digits 0 body with
      | Some n => Return n
      | None => Raise (ValueError "invalid literal for int() with base 16")
      end
  end.

Definition failure (tx_hash chain : string) (amount : Q)
    (from_address to_address : string) (block_number confirmations : Z)
    (risk_score : Q) (msg : string) : PaymentVerification :=
  mkVerification false tx_hash chain amount from_address to_address
                 block_number confirmations risk_score (Some msg).

(** The state of the loop over [tx_receipt.logs]: the three locals it
    assigns. *)
Definition found : Type := (Q * string * string)%type.

(** The loop over the receipt's logs.  It stops at the first USDC
    [Transfer] whose destination is our address; decoding the value of
    a USDC [Transfer] can raise. *)
Fixpoint scan_logs (w3 : Web3) (cfg : ChainConfig)
    (our_payment_address : string) (ls : list Log) : outcome found :=
  match ls with
  | [] => Return (0%Q, "", "")
  | log :: rest =>
      if (3 <=? Z.of_nat (List.length (topics log)))
         && String.eqb (nth 0 (topics log) "") (transfer_event_signature w3)
         && String.eqb (lower (address log))
                       (lower (usdc_contract_address cfg))
      then
        let event_from := "0x" ++ last_chars 40 (nth 1 (topics log) "") in
        let event_to := "0x" ++ last_chars 40 (nth 2 (topics log) "") in
        match int_base16 (data log) with
        | Raise e => Raise e
        | Return amount_raw =>
            if String.eqb (lower event_to) (lower our_payment_address)
            then Return
                   ((inject_Z amount_raw
                     / inject_Z (10 ^ Z.of_N (usdc_decimals cfg)))%Q,
                    event_from, event_to)
            else scan_logs w3 cfg our_payment_address rest
        end
      else scan_logs w3 cfg our_payment_address rest
  end.

Definition seven_days : Z := 7 * 24 * 3600.

(** [tx['to'] or ''] *)
Definition or_empty (o : option string) : string :=
  match o with Some s => s | None => "" end.

(** The body of the [try] block of [_verify_evm_payment]. *)
Definition evm_body (v : t) (now : Z) (tx_hash chain : string)
    (cfg : ChainConfig) : outcome PaymentVerification :=
  match dict_get (web3_instances v) chain with
  | None => Raise (KeyError ("'" ++ chain ++ "'"))
  | Some web3 =>
  match get_transaction_receipt web3 tx_hash with
  | Raise e => Raise e
  | Return None =>
      Return (failure tx_hash chain 0 "" "" 0 0 1 "Transaction not found")
  | Return (Some tx_receipt) =>
  if negb (receipt_status tx_receipt =? 1) then
    Return (failure tx_hash chain 0 "" "" (blockNumber tx_receipt) 0 1
                    "Transaction failed")
  else
  match get_transaction web3 tx_hash with
  | Raise e => Raise e
  | Return tx =>
  match eth_block_number web3 with
  | Raise e => Raise e
  | Return current_block =>
  let confirmations := current_block - blockNumber tx_receipt in
  if confirmations <? required_confirmations cfg then
    Return (failure tx_hash chain 0 (tx_from tx) (or_empty (tx_to tx))
              (blockNumber tx_receipt) confirmations (1 # 2)
              ("Insufficient confirmations: " ++ str_int confirmations
               ++ "/" ++ str_int (required_confirmations cfg)))
  else
  let our_payment_address := get_payment_address v chain in
  match scan_logs web3 cfg our_payment_address (logs tx_receipt) with
  | Raise e => Raise e
  | Return (amount_usdc, from_address, to_address) =>
  if Qeq_bool amount_usdc 0 then
    Return (failure tx_hash chain 0 (tx_from tx) (or_empty (tx_to tx))
              (blockNumber tx_receipt) confirmations (8 # 10)
              "No USDC transfer to payment address found in transaction")
  else if Qlt_bool amount_usdc (min_payment_amount v) then
    Return (failure tx_hash chain amount_usdc from_address to_address
              (blockNumber tx_receipt) confirmations (3 # 10)
              ("Payment amount too low: " ++ str_decimal v amount_usdc
               ++ " < " ++ str_decimal v (min_payment_amount v)))
  else
  match get_block_timestamp web3 (blockNumber tx_receipt) with
  | Raise e => Raise e
  | Return timestamp =>
  let tx_timestamp := timestamp + utc_offset v in
  let tx_age := now - tx_timestamp in
  if seven_days <? tx_age then
    Return (failure tx_hash chain amount_usdc from_address to_address
              (blockNumber tx_receipt) confirmations (7 # 10)
              ("Transaction too old: " ++ str_int (tx_age / 86400)
               ++ " days (max 7 days)"))
  else
    let risk_score := _calculate_risk_score tx_hash chain from_address in
    Return (mkVerification true tx_hash chain amount_usdc from_address
              to_address (blockNumber tx_receipt) confirmations
              risk_score None)
  end end end end end end.

Definition _verify_evm_payment (v : t) (now : Z) (tx_hash chain : string)
    (cfg : ChainConfig) : PaymentVerification :=
  match evm_body v now tx_hash chain cfg with
  | Return r => r
  | Raise (TransactionNotFound _) =>
      failure tx_hash chain 0 "" "" 0 0 1 "Transaction not found on chain"
  | Raise e =>
      failure tx_hash chain 0 "" "" 0 0 1
              ("Error verifying payment: " ++ str_exn e)
  end.

(** The loop over the parsed instructions of a Solana transaction. *)
Fixpoint scan_instructions (payment_address : string)
    (ins : list Instruction) : outcome found :=
  match ins with
  | [] => Return (0%Q, "", "")
  | instruction :: rest =>
      match parsed instruction with
      | Some (ParsedDict instruction_type info) =>
          if String.eqb instruction_type "transfer"
             || String.eqb instruction_type "transferChecked"
          then
            let amount_raw :=
              if String.eqb instruction_type "transferChecked"
              then token_amount info else transfer_amount info in
            let decimals :=
              if String.eqb instruction_type "transferChecked"
              then token_decimals info else 6%N in
            match amount_raw with
            | None => Raise (Exception "decimal.InvalidOperation")
            | Some raw =>
                let amount := (raw / inject_Z (10 ^ Z.of_N decimals))%Q in
                if String.eqb (lower (destination info))
                              (lower payment_address)
                then Return (amount, source info, destination info)
                else scan_instructions payment_address rest
            end
          else scan_instructions payment_address rest
      | _ => scan_instructions payment_address rest
      end
  end.

(** The body of the [try] block of [_verify_solana_payment]. *)
Definition solana_body (v : t) (tx_hash : string) (cfg : ChainConfig)
  : outcome PaymentVerification :=
  match solana_client v with
  | None =>
      Return (failure tx_hash "solana" 0 "" "" 0 0 1
                      "Solana client not initialized")
  | Some client =>
  match signature_from_string v tx_hash with
  | Some e =>
      Return (failure tx_hash "solana" 0 "" "" 0 0 1
                      ("Invalid Solana signature format: " ++ str_exn e))
  | None =>
  match sol_get_transaction client tx_hash with
  | Raise e => Raise e
  | Return None =>
      Return (failure tx_hash "solana" 0 "" "" 0 0 1
                      "Transaction not found on Solana")
  | Return (Some tx_data) =>
  match meta_err tx_data with
  | Some err =>
      Return (failure tx_hash "solana" 0 "" ""
                (if slot tx_data =? 0 then 0 else slot tx_data) 0 1
                ("Transaction failed: " ++ err))
  | None =>
  let slot := if slot tx_data =? 0 then 0 else slot tx_data in
  match sol_get_slot client with
  | Raise e => Raise e
  | Return value =>
  let current_slot := if value =? 0 then slot else value in
  let confirmations := current_slot - slot in
  match scan_instructions (X402Config.solana_payment_address (config v))
                          (instructions tx_data) with
  | Raise e => Raise e
  | Return (amount_usdc, from_address, to_address) =>
  if Qeq_bool amount_usdc 0 then
    Return (failure tx_hash "solana" 0 from_address to_address
              slot confirmations (8 # 10)
              "No USDC transfer to payment address found in transaction")
  else if confirmations <? required_confirmations cfg then
    Return (failure tx_hash "solana" amount_usdc from_address to_address
              slot confirmations (1 # 2)
              ("Insufficient confirmations: " ++ str_int confirmations
               ++ "/" ++ str_int (required_confirmations cfg)))
  else if Qlt_bool amount_usdc (min_payment_amount v) then
    Return (failure tx_hash "solana" amount_usdc from_address to_address
              slot confirmations (3 # 10)
              ("Payment amount too low: " ++ str_decimal v amount_usdc
               ++ " < " ++ str_decimal v (min_payment_amount v)))
  else
    let risk_score := _calculate_risk_score tx_hash "solana" from_address in
    Return (mkVerification true tx_hash "solana" amount_usdc from_address
              to_address slot confirmations risk_score None)
  end end end end end end.

Definition _verify_solana_payment (v : t) (tx_hash : string)
    (cfg : ChainConfig) : PaymentVerification :=
  match solana_body v tx_hash cfg with
  | Return r => r
  | Raise e =>
      failure tx_hash "solana" 0 "" "" 0 0 1
              ("Error verifying Solana payment: " ++ str_exn e)
  end.

Definition verify_payment (v : t) (now : Z) (tx_hash chain : string)
  : PaymentVerification :=
  match dict_get (chains v) chain with
  | None =>
      failure tx_hash chain 0 "" "" 0 0 1 ("Unsupported chain: " ++ chain)
  | Some cfg =>
      if String.eqb chain "solana"
      then _verify_solana_payment v tx_hash cfg
      else _verify_evm_payment v now tx_hash chain cfg
  end.

End PaymentVerifier.

(** ** Risk scorer ([api/x402/risk_scorer.py])

    A Python [float] is an IEEE 754 binary64 number, and so is Rocq's
    primitive [float]: a literal such as [0.1] denotes the binary64
    nearest to it, and [+], [*] and [/] round to nearest, ties to even,
    in both.  The scorer is therefore modelled on [float], operation by
    operation, in the order the source evaluates them. *)

Module RiskScorer.
Import Py.
Local Open Scope float_scope.

(** [float(n)] for an [int] (of size below [2^63]; exact below [2^53]). *)
Definition float_of_int (n : Z) : float :=
  if (n <? 0)%Z then - of_uint63 (Uint63.of_Z (- n))
  else of_uint63 (Uint63.of_Z n).

(** [float(d)] for a [Decimal], kept as a fraction of two integers below
    [2^53]: the binary64 nearest to [d]. *)
Definition float_of_decimal (d : Q) : float :=
  float_of_int (Qnum d) / float_of_int (Zpos (Qden d)).

(** [max(a, b)] and [min(a, b)]: the second argument is taken only when
    it is strictly beyond the first. *)
Definition max_float (a b : float) : float := if a <? b then b else a.
Definition min_float (a b : float) : float := if b <? a then b else a.

(** A JSON value that is neither a number nor [null]. *)
Inductive JsonKind : Type :=
| JString
| JArray
| JObject.

(** What the body of a 200 answer holds under ["risk_score"].  A JSON
    number is kept as the float it multiplies as (so is a JSON boolean,
    an [int] in Python: 1.0 or 0.0); integers beyond the range of a float
    are not covered. *)
Inductive JsonField : Type :=
| Absent
| Null
| Numeric (x : float)
| NonNumeric (kind : JsonKind).

(** What the external risk service answers: the HTTP status and the
    ["risk_score"] entry of [response.json()] ([Raise] when the body is
    not a JSON object). *)
Record HttpResponse : Type := mkResponse {
  status_code : Z;
  json_risk_score : outcome JsonField
}.

(** A value held by the [factors] dict: the scorer's own factors are
    floats, the external one is whatever the service sent. *)
Inductive Value : Type :=
| Number (x : float)
| Other (kind : JsonKind).

(** The [TypeError] of [score * weight] for a score that is no number. *)
Definition mul_type_error (kind : JsonKind) : exn :=
  match kind with
  | JString | JArray =>
      TypeError "can't multiply sequence by non-int of type 'float'"
  | JObject =>
      TypeError "unsupported operand type(s) for *: 'dict' and 'float'"
  end.

Record t : Type := mkScorer {
  max_score : float;
  reject_threshold : float;
  (** [None] unless both [external_api_url] and [external_api_key] are
      set; otherwise the answer to the POST for (tx_hash, chain, address) *)
  external_api : option (string -> string -> string -> outcome HttpResponse);
  (** the [:.2f] rendering of a float *)
  format_2f : float -> string
}.

(** The constructor defaults. *)
Definition default_scorer (fmt : float -> string) : t :=
  mkScorer 1.0 0.8 None fmt.

Record RiskScore : Type := mkRiskScore {
  score : float;
  factors : list (string * float);
  reason : string;
  is_high_risk : bool
}.

Definition _score_transaction_age (now : Z) (tx_timestamp : option Z)
  : float :=
  match tx_timestamp with
  | None => 0.3
  | Some ts =>
      let age_minutes := float_of_int (now - ts) / 60 in
      if age_minutes <? 5 then 0.4
      else if age_minutes <? 30 then 0.2
      else if age_minutes <? float_of_int (60 * 24) then 0.1
      else 0.05
  end.

Definition required_confirmations : list (string * Z) :=
  [("base", 1); ("polygon", 3); ("ethereum", 3); ("avalanche", 1);
   ("solana", 1); ("sei", 1); ("iotex", 3); ("peaq", 1)]%Z.

Definition _score_confirmations (confirmations : Z) (chain : string)
  : float :=
  let required :=
    match dict_get required_confirmations chain with
    | Some r => r
    | None => 3%Z
    end in
  if (required * 2 <=? confirmations)%Z then 0.0
  else if (required <=? confirmations)%Z then 0.1
  else if (1 <=? confirmations)%Z then 0.3
  else 0.7.

Definition _score_amount (amount : Q) : float :=
  let amount_float := float_of_decimal amount in
  if amount_float <? 0.10 then 0.5
  else if amount_float <? 1.0 then 0.1
  else if amount_float <? 100.0 then 0.05
  else if amount_float <? 1000.0 then 0.1
  else 0.3.

Definition chain_risk : list (string * float) :=
  [("base", 0.05); ("polygon", 0.1); ("ethereum", 0.05);
   ("avalanche", 0.1); ("solana", 0.15); ("sei", 0.15);
   ("iotex", 0.2); ("peaq", 0.2)].

Definition _score_chain (chain : string) : float :=
  match dict_get chain_risk chain with
  | Some r => r
  | None => 0.25
  end.

Definition known_bad_addresses : list string := [].
Definition known_good_addresses : list string := [].

Definition _score_address_reputation (address chain : string)
  : option float :=
  if String.eqb chain "solana" && (String.length address <? 32)%nat
  then Some 0.5
  else if negb (String.eqb chain "solana")
          && (negb (startswith "0x" address)
              || negb (String.length address =? 42)%nat)
  then Some 0.6
  else if existsb (String.eqb (lower address)) known_bad_addresses
  then Some 1.0
  else if existsb (String.eqb (lower address)) known_good_addresses
  then Some 0.0
  else Some 0.1.

(** [data.get("risk_score", 0.0)]: the default stands in for a missing
    key only; a [null] comes back as [None]. *)
Definition _get_external_risk_score (self : t)
    (tx_hash chain address : string) : option Value :=
  match external_api self with
  | None => None
  | Some post =>
      match post tx_hash chain address with
      | Raise _ => None
      | Return response =>
          if (status_code response =? 200)%Z then
            match json_risk_score response with
            | Raise _ => None
            | Return Absent => Some (Number 0.0)
            | Return Null => None
            | Return (Numeric x) => Some (Number x)
            | Return (NonNumeric kind) => Some (Other kind)
            end
          else None
      end
  end.

Definition weights : list (string * float) :=
  [("age", 0.1); ("confirmations", 0.3); ("amount", 0.15);
   ("chain", 0.15); ("address_reputation", 0.2);
   ("external_api", 0.1)].

(** [weights.get(factor, 0.1)] *)
Definition weight_of (factor : string) : float :=
  match dict_get weights factor with
  | Some w => w
  | None => 0.1
  end.

(** The loop of [_calculate_weighted_score] over [factors.items()],
    started from the running totals; [score * weight] raises on a score
    that is no number. *)
Fixpoint accumulate (items : list (string * Value))
    (total_score total_weight : float) : outcome (float * float) :=
  match items with
  | [] => Return (total_score, total_weight)
  | (factor, score) :: rest =>
      let weight := weight_of factor in
      match score with
      | Number s =>
          accumulate rest (total_score + s * weight) (total_weight + weight)
      | Other kind => Raise (mul_type_error kind)
      end
  end.

Definition _calculate_weighted_score (self : t)
    (factors : list (string * Value)) : outcome float :=
  match accumulate factors 0.0 0.0 with
  | Raise e => Raise e
  | Return (total_score, total_weight) =>
      if total_weight =? 0 then Return 0.5
      else
        let final_score := total_score / total_weight in
        Return (min_float (max_float final_score 0.0) (max_score self))
  end.

(** [max(factors.items(), key=lambda x: x[1])]: the first item with the
    largest score. *)
Fixpoint highest (best : string * float) (items : list (string * float))
  : string * float :=
  match items with
  | [] => best
  | it :: rest =>
      if snd best <? snd it then highest it rest
      else highest best rest
  end.

Definition reasons : list (string * string) :=
  [("age", "Transaction is very recent");
   ("confirmations", "Insufficient confirmations");
   ("amount", "Unusual payment amount");
   ("chain", "High-risk blockchain network");
   ("address_reputation", "Sender address has poor reputation");
   ("external_api", "External risk service flagged as risky")]%string.

Definition _generate_reason (self : t) (factors : list (string * float))
    (total_score : float) (is_high_risk : bool) : outcome string :=
  if is_high_risk then
    match factors with
    | [] => Raise (ValueError "max() arg is an empty sequence")
    | it :: rest =>
        let factor_name := fst (highest it rest) in
        let why := match dict_get reasons factor_name with
                   | Some r => r
                   | None => "Multiple risk factors"%string
                   end in
        Return ("High risk: " ++ why ++ " (score: "
                ++ format_2f self total_score ++ ")")%string
    end
  else
    Return ("Low risk: All checks passed (score: "
            ++ format_2f self total_score ++ ")")%string.

(** [d[k] = v] on a dict whose keys so far differ from [k], skipped when
    there is no [v]. *)
Definition dict_add {V} (d : list (string * V)) (k : string) (v : option V)
  : list (string * V) :=
  match v with
  | Some s => (d ++ [(k, s)])%list
  | None => d
  end.

(** The [factors] dict [score_payment] fills in, in insertion order. *)
Definition collect_factors (self : t) (now : Z) (tx_hash chain : string)
    (amount_usdc : Q) (from_address : string) (confirmations : Z)
    (tx_timestamp : option Z) : list (string * Value) :=
  let factors :=
    [("age", Number (_score_transaction_age now tx_timestamp));
     ("confirmations", Number (_score_confirmations confirmations chain));
     ("amount", Number (_score_amount amount_usdc));
     ("chain", Number (_score_chain chain))]%string in
  let factors :=
    dict_add factors "address_reputation"
             (option_map Number
                (_score_address_reputation from_address chain)) in
  dict_add factors "external_api"
           (_get_external_risk_score self tx_hash chain from_address).

(** The items of a dict as floats.  Once the weighted sum has gone
    through every value is a number, and nothing is left out. *)
Fixpoint numbers (factors : list (string * Value)) : list (string * float) :=
  match factors with
  | [] => []
  | (factor, Number x) :: rest => (factor, x) :: numbers rest
  | (_, Other _) :: rest => numbers rest
  end.

Definition score_payment (self : t) (now : Z) (tx_hash chain : string)
    (amount_usdc : Q) (from_address to_address : string)
    (block_number confirmations : Z) (tx_timestamp : option Z)
  : outcome RiskScore :=
  let factors :=
    collect_factors self now tx_hash chain amount_usdc from_address
                    confirmations tx_timestamp in
  match _calculate_weighted_score self factors with
  | Raise e => Raise e
  | Return total_score =>
      let is_high_risk := reject_threshold self <=? total_score in
      match _generate_reason self (numbers factors) total_score
                             is_high_risk with
      | Raise e => Raise e
      | Return reason =>
          Return (mkRiskScore total_score (numbers factors) reason
                              is_high_risk)
      end
  end.

(** *** The aggregation as the specification words it

    Six optional factor scores; the score is the average of the present
    ones under the fixed weights, renormalized to the weights present,
    and [0.5] when none is present.  Sums run over the present factors in
    the order the weights are listed, from [0.0]. *)
Record PresentFactors : Type := mkPresent {
  age : option float;
  confirmations : option float;
  amount : option float;
  chain : option float;
  address_reputation : option float;
  external_api_factor : option float
}.

(** The weight and the score of a factor, when it is present. *)
Definition entry (w : float) (f : option float) : list (float * float) :=
  match f with Some s => [(w, s)] | None => [] end.

Definition present (f : PresentFactors) : list (float * float) :=
  (entry 0.1 (age f) ++ entry 0.3 (confirmations f)
   ++ entry 0.15 (amount f) ++ entry 0.15 (chain f)
   ++ entry 0.2 (address_reputation f)
   ++ entry 0.1 (external_api_factor f))%list.

Definition any_present (f : PresentFactors) : bool :=
  match present f with [] => false | _ :: _ => true end.

(** The sum of score times weight, and the sum of the weights. *)
Definition weighted_sum (f : PresentFactors) : float :=
  fold_left (fun acc e => acc + snd e * fst e) (present f) 0.0.

Definition weight_sum (f : PresentFactors) : float :=
  fold_left (fun acc e => acc + fst e) (present f) 0.0.

Definition weighted_average (f : PresentFactors) : float :=
  weighted_sum f / weight_sum f.

Definition spec_weighted_average (f : PresentFactors) : float :=
  if any_present f then weighted_average f else 0.5.

(** The factors dict that holds exactly the present factors, in the
    order [score_payment] inserts them. *)
Definition dict_of (f : PresentFactors) : list (string * Value) :=
  dict_add (dict_add (dict_add (dict_add (dict_add (dict_add []
    "age" (option_map Number (age f)))
    "confirmations" (option_map Number (confirmations f)))
    "amount" (option_map Number (amount f)))
    "chain" (option_map Number (chain f)))
    "address_reputation" (option_map Number (address_reputation f)))
    "external_api" (option_map Number (external_api_factor f)).

(** The factors a returned breakdown holds, by name. *)
Definition present_in (d : list (string * float)) : PresentFactors :=
  mkPresent (dict_get d "age") (dict_get d "confirmations")
            (dict_get d "amount") (dict_get d "chain")
            (dict_get d "address_reputation") (dict_get d "external_api").

(** [min(max(x, 0.0), max_score)] *)
Definition clamp (self : t) (x : float) : float :=
  min_float (max_float x 0.0) (max_score self).

(** The aggregation with the clamp the code applies to an average. *)
Definition clamped_average (self : t) (f : PresentFactors) : float :=
  if any_present f then clamp self (weighted_average f) else 0.5.

(** *** Vocabulary of the statements *)

(** Every score in a breakdown lies between [0.0] and [1.0]. *)
Definition unit_interval (d : list (string * float)) : bool :=
  forallb (fun it => (0.0 <=? snd it) && (snd it <=? 1.0)) d.

(** The scores each of the scorer's own factors can take. *)
Definition age_scores : list float := [0.3; 0.4; 0.2; 0.1; 0.05].
Definition confirmations_scores : list float := [0.0; 0.1; 0.3; 0.7].
Definition amount_scores : list float := [0.5; 0.1; 0.05; 0.3].
Definition chain_scores : list float := [0.05; 0.1; 0.15; 0.2; 0.25].
Definition address_scores : list float := [0.5; 0.6; 1.0; 0.0; 0.1].

(** With the five own factors at the given scores and no external one:
    the average is neither below [0.0] nor above [1.0], and it is below
    [0.8]. *)
Definition plain_average_ok (a c m ch ad : float) : bool :=
  let avg := weighted_average
               (mkPresent (Some a) (Some c) (Some m) (Some ch) (Some ad)
                          None) in
  negb (avg <? 0.0) && negb (1.0 <? avg) && negb (0.8 <=? avg).

Definition every_plain_average_ok : bool :=
  forallb (fun a =>
  forallb (fun c =>
  forallb (fun m =>
  forallb (fun ch =>
  forallb (fun ad => plain_average_ok a c m ch ad)
    address_scores) chain_scores) amount_scores) confirmations_scores)
    age_scores.

End RiskScorer.

(** ** Process state and shared value types *)

(** One entry of [PaymentAnalytics.metrics_cache] (latency is wall-clock
    time and is left out). *)
Record Attempt : Type := mkAttempt {
  at_timestamp : Z;
  at_endpoint : string;
  at_facilitator : string;
  at_success : bool;
  at_amount_usdc : option Q;
  at_user_address : option string;
  at_error_reason : option string
}.

(** What one request can change: the ledger and the analytics cache. *)
Record World : Type := mkWorld {
  session : Session;
  metrics_cache : list Attempt
}.

(** A committed database operation, inside the monad. *)
Definition db_op {A} (f : Session -> Session * A) : Py.M World A :=
  fun w =>
    let (s', a) := f (session w) in
    (Py.Return a, mkWorld s' (metrics_cache w)).

(** The authorization dict the tiers return: [is_valid] is always set,
    the other keys only on some paths. *)
Module Auth.
Record t : Type := mk {
  is_valid : bool;
  error : option string;
  payment_id : option Z;
  payment_type : option string;
  risk_score : option Q;
  payer : option string;
  transaction : option string;
  network : option string;
  amount_usdc : option Q;
  from_address : option string
}.

(** [{'is_valid': False, 'error': msg}] *)
Definition invalid (msg : string) : t :=
  mk false (Some msg) None None None None None None None None.
End Auth.

(** ** Payment ledger ([api/x402/payment_tracker.py]) *)

Module PaymentTracker.
Import Py.
Local Open Scope py_scope.

Record t : Type := mkTracker {
  token_expiry_hours : Z;
  requests_per_dollar : Z;
  (** [hashlib.sha256(token.encode()).hexdigest()] *)
  sha256_hexdigest : string -> string
}.

(** [__init__]: reads the configuration. *)
Definition init (cfg : X402Config.t) (sha256 : string -> string) : t :=
  mkTracker (X402Config.token_expiry_hours cfg)
            (int_of_Q (X402Config.requests_per_dollar cfg)) sha256.

(** Everything an instance answers to: the attributes [__init__] sets
    and the methods the class defines. *)
Definition attributes : list string :=
  ["db_session"; "config"; "token_expiry_hours"; "requests_per_dollar";
   "_get_db"; "create_payment_record"; "generate_payment_token";
   "get_payment_by_token"; "record_usage"; "get_payment_stats";
   "cleanup_expired_payments"; "_hash_token"; "_payment_to_dict"].

(** [getattr(tracker, name)]: succeeds exactly on [attributes]. *)
Definition getattr (name : string) : outcome unit :=
  if existsb (String.eqb name) attributes then Return tt
  else Raise (AttributeError
                ("'PaymentTracker' object has no attribute '"
                 ++ name ++ "'")).

Record PaymentDict : Type := mkDict {
  id : Z;
  tx_hash : string;
  chain : string;
  amount_usdc : Q;
  from_address : string;
  to_address : string;
  status : string;
  risk_score : Q;
  created_at : Z;
  verified_at : option Z;
  expires_at : Z;
  requests_allocated : Z;
  requests_used : Z;
  requests_remaining : Z
}.

Definition _payment_to_dict (payment : X402Payment.t) : PaymentDict :=
  mkDict (X402Payment.id payment) (X402Payment.tx_hash payment)
         (X402Payment.chain payment) (X402Payment.amount_usdc payment)
         (X402Payment.from_address payment) (X402Payment.to_address payment)
         (X402Payment.status payment) (X402Payment.risk_score payment)
         (X402Payment.created_at payment) (X402Payment.verified_at payment)
         (X402Payment.expires_at payment)
         (X402Payment.requests_allocated payment)
         (X402Payment.requests_used payment)
         (X402Payment.requests_remaining payment).

Definition _hash_token (self : t) (token : string) : string :=
  sha256_hexdigest self token.

Definition create_payment_record (self : t) (now : Z)
    (tx_hash chain : string) (amount_usdc : Q)
    (from_address to_address : string) (block_number confirmations : Z)
    (risk_score : Q) : M World PaymentDict :=
  existing <- db_op (fun db =>
                (db, X402Database.get_payment_by_tx_hash db tx_hash)) ;;
  match existing with
  | Some row => ret (_payment_to_dict row)
  | None =>
      let requests_allocated :=
        int_of_Q (amount_usdc * inject_Z (requests_per_dollar self))%Q in
      let expires_at := now + token_expiry_hours self * 3600 in
      payment <- db_op (fun db =>
                   X402Database.create_payment db now tx_hash chain
                     amount_usdc from_address to_address block_number
                     confirmations risk_score requests_allocated
                     expires_at) ;;
      ret (_payment_to_dict payment)
  end.

(** *** Calling [create_payment_record] with keyword arguments

    The arguments a call site passes by keyword; [None] is a keyword the
    call site leaves out. *)
Record Kwargs : Type := mkKwargs {
  kw_tx_hash : option string;
  kw_chain : option string;
  kw_amount_usdc : option Q;
  kw_from_address : option string;
  kw_to_address : option string;
  kw_block_number : option Z;
  kw_confirmations : option Z;
  kw_risk_score : option Q
}.

Definition missing {A} (name : string) (a : option A) : list string :=
  match a with Some _ => [] | None => [name] end.

(** The parameters without a default that the call leaves unbound. *)
Definition missing_arguments (kw : Kwargs) : list string :=
  missing "tx_hash" (kw_tx_hash kw) ++ missing "chain" (kw_chain kw)
  ++ missing "amount_usdc" (kw_amount_usdc kw)
  ++ missing "from_address" (kw_from_address kw)
  ++ missing "to_address" (kw_to_address kw)
  ++ missing "block_number" (kw_block_number kw)
  ++ missing "confirmations" (kw_confirmations kw).

Definition quote (name : string) : string := "'" ++ name ++ "'".

Fixpoint join_tail (names : list string) : string :=
  match names with
  | [] => ""
  | [a] => "and " ++ quote a
  | a :: r => quote a ++ ", " ++ join_tail r
  end.

(** How the interpreter lists the unbound parameters. *)
Definition join_names (names : list string) : string :=
  match names with
  | [] => ""
  | [a] => quote a
  | [a; b] => quote a ++ " and " ++ quote b
  | a :: r => quote a ++ ", " ++ join_tail r
  end.

Definition missing_message (names : list string) : string :=
  "PaymentTracker.create_payment_record() missing "
  ++ str_int (Z.of_nat (List.length names))
  ++ " required positional argument"
  ++ (if (List.length names =? 1)%nat then "" else "s") ++ ": "
  ++ join_names names.

(** Argument binding, then the body.  [risk_score] defaults to [0.1]. *)
Definition call_create_payment_record (self : t) (now : Z) (kw : Kwargs)
  : M World PaymentDict :=
  match kw_tx_hash kw, kw_chain kw, kw_amount_usdc kw, kw_from_address kw,
        kw_to_address kw, kw_block_number kw, kw_confirmations kw with
  | Some tx_hash, Some chain, Some amount_usdc, Some from_address,
    Some to_address, Some block_number, Some confirmations =>
      create_payment_record self now tx_hash chain amount_usdc
        from_address to_address block_number confirmations
        (match kw_risk_score kw with Some r => r | None => 1 # 10 end)
  | _, _, _, _, _, _, _ =>
      raise (TypeError (missing_message (missing_arguments kw)))
  end.

(** [raw_token] is the value [secrets.token_urlsafe(32)] draws. *)
Definition generate_payment_token (self : t) (now : Z) (payment_id : Z)
    (raw_token : string) : M World string :=
  payment <- db_op (fun db =>
               (db, X402Database.get_payment_by_id db payment_id)) ;;
  match payment with
  | None => raise (ValueError ("Payment not found: " ++ str_int payment_id))
  | Some payment =>
      if negb (String.eqb (X402Payment.status payment) "verified")
      then raise (ValueError
                    ("Payment not verified: " ++ str_int payment_id))
      else
        let token_hash := _hash_token self raw_token in
        db_op (fun db =>
          X402Database.create_token db now token_hash payment_id
            (X402Payment.expires_at payment)) ;;;
        ret raw_token
  end.

Definition get_payment_by_token (self : t) (now : Z) (token : string)
  : M World (option PaymentDict) :=
  let token_hash := _hash_token self token in
  payment <- db_op (fun db =>
               X402Database.get_payment_by_token_hash db now token_hash) ;;
  match payment with
  | None => ret None
  | Some payment => ret (Some (_payment_to_dict payment))
  end.

Definition record_usage (self : t) (now : Z) (payment_id : Z)
    (endpoint method : string) (status_code : Z)
    (response_time_ms : option Z) (ip_address user_agent : option string)
  : M World unit :=
  success <- db_op (fun db =>
               X402Database.update_payment_usage db now payment_id) ;;
  if negb success then
    raise (ValueError ("Failed to update payment usage for payment "
                       ++ str_int payment_id))
  else
    db_op (fun db =>
      X402Database.record_usage db now payment_id endpoint method
        status_code response_time_ms ip_address user_agent) ;;;
    ret tt.

Definition cleanup_expired_payments (self : t) (now : Z) : M World Z :=
  db_op (fun db => X402Database.cleanup_expired_payments db now).

End PaymentTracker.

(** ** Inbound request *)

Module Request.
Record t : Type := mk {
  method : string;
  path : string;
  headers : list (string * string)
}.

(** [request.headers.get(name)]: header names compare without case;
    [name] is given in lower case. *)
Fixpoint lookup (hs : list (string * string)) (name : string)
  : option string :=
  match hs with
  | [] => None
  | (k, v) :: r =>
      if String.eqb (Py.lower k) name then Some v else lookup r name
  end.

Definition header (request : t) (name : string) : option string :=
  lookup (headers request) name.
End Request.

(** ** Facilitator client ([api/x402/payai_facilitator.py]) *)

Module PayAIFacilitator.
Import Py.

Record PaymentRequirement : Type := mkRequirement {
  scheme : string;
  network : string;
  max_amount_required : string;
  asset : string;
  pay_to : string;
  resource : string;
  description : string;
  mime_type : string;
  max_timeout_seconds : Z;
  extra : list (string * string)
}.

Record VerificationResult : Type := mkVerificationResult {
  is_valid : bool;
  payer : string;
  invalid_reason : option string
}.

Record SettlementResult : Type := mkSettlementResult {
  success : bool;
  settle_payer : string;
  transaction : string;
  settle_network : string;
  error_reason : option string
}.

(** The client: the merchant address and what awaiting [verify_payment]
    and [settle_payment] yields for a header and a requirement. *)
Record t : Type := mkFacilitator {
  merchant_address : string;
  verify_payment : string -> PaymentRequirement -> outcome VerificationResult;
  settle_payment : string -> PaymentRequirement -> outcome SettlementResult
}.

Definition usdc_addresses : list (string * string) :=
  [("base", "0x833589fCD6eDb6E08f4c7C32D4f71b54bdA02913");
   ("base-sepolia", "0x036CbD53842c5426634e7929541eC2318f3dCF7e");
   ("polygon", "0x3c499c542cEF5E3811e1192ce70d8cC03d5c3359");
   ("ethereum", "0xA0b86991c6218b36c1d19D4a2e9Eb0cE3606eB48");
   ("solana", "EPjFWdd5AufqSSqeM2qN1xzybapC8G4wEGGkZwyTDt1v");
   ("avalanche", "0xB97EF9Ef8734C71904D8002F8b6Bc66Dd9c48a6E")].

Definition create_payment_requirement (self : t) (endpoint : string)
    (price_usdc : Q) (description network : string) : PaymentRequirement :=
  let asset :=
    match dict_get usdc_addresses network with
    | Some a => a
    | None => "0x833589fCD6eDb6E08f4c7C32D4f71b54bdA02913"
    end in
  let amount_atomic :=
    str_int (int_of_Q (price_usdc * inject_Z (10 ^ 6))%Q) in
  mkRequirement "exact" network amount_atomic asset (merchant_address self)
                endpoint description "application/json" 60
                [("name", "USDC"); ("version", "2")].

(** The [accepts] list of [create_402_response]. *)
Definition create_402_response (self : t) (endpoint : string)
    (price_usdc : Q) (description : string) (networks : list string)
  : list PaymentRequirement :=
  map (create_payment_requirement self endpoint price_usdc description)
      networks.
End PayAIFacilitator.

(** ** Unified gateway ([api/x402/payment_gateway.py]) *)

Module PaymentAnalytics.
Import Py.

(** [record_payment_attempt]: appends to the in-memory cache. *)
Definition record_payment_attempt (a : Attempt) : M World unit :=
  fun w => (Return tt, mkWorld (session w) (metrics_cache w ++ [a])).
End PaymentAnalytics.

Module UnifiedPaymentGateway.
Import Py.
Local Open Scope py_scope.

(** The two methods of the middleware the gateway calls. *)
Record NativeMiddleware : Type := mkNative {
  _validate_onchain_payment : Z -> string -> string -> M World Auth.t;
  _validate_payment_token : Z -> string -> M World Auth.t
}.

Record t : Type := mkGateway {
  payment_tracker : PaymentTracker.t;
  config : X402Config.t;
  middleware : option NativeMiddleware;
  payai : PayAIFacilitator.t;
  (** [self.analytics.record_payment_attempt] *)
  record_payment_attempt : Attempt -> M World unit;
  (** the module-level [payment_verifier] *)
  verifier : PaymentVerifier.t
}.

Definition _get_endpoint_price (self : t) (endpoint : string) : option Q :=
  dict_get (X402Config.endpoint_prices (config self)) endpoint.

(** [x or default] on an optional string *)
Definition or_default (o : option string) (d : string) : string :=
  match o with
  | Some s => if String.eqb s "" then d else s
  | None => d
  end.

Definition _verify_payai_payment (self : t) (now : Z)
    (request : Request.t) (payment_header : string) : M World Auth.t :=
  try_except
    (let endpoint := Request.path request in
     match _get_endpoint_price self endpoint with
     | None => ret (Auth.invalid "Endpoint not configured for payments")
     | Some price_usdc =>
         let payment_requirement :=
           PayAIFacilitator.create_payment_requirement (payai self)
             endpoint price_usdc ("Access to " ++ endpoint) "base" in
         verification <-
           lift_outcome (PayAIFacilitator.verify_payment (payai self)
                           payment_header payment_requirement) ;;
         if negb (PayAIFacilitator.is_valid verification) then
           ret (Auth.invalid
                  (or_default (PayAIFacilitator.invalid_reason verification)
                              "PayAI verification failed"))
         else
           settlement <-
             lift_outcome (PayAIFacilitator.settle_payment (payai self)
                             payment_header payment_requirement) ;;
           if negb (PayAIFacilitator.success settlement) then
             ret (Auth.invalid
                    (or_default (PayAIFacilitator.error_reason settlement)
                                "PayAI settlement failed"))
           else
             payment_record <-
               PaymentTracker.create_payment_record (payment_tracker self)
                 now (PayAIFacilitator.transaction settlement)
                 (PayAIFacilitator.settle_network settlement)
                 price_usdc
                 (PayAIFacilitator.settle_payer settlement)
                 (PayAIFacilitator.merchant_address (payai self))
                 0 1 (1 # 10) ;;
             ret (Auth.mk true None
                    (Some (PaymentTracker.id payment_record))
                    (Some "payai_facilitator") None
                    (Some (PayAIFacilitator.settle_payer settlement))
                    (Some (PayAIFacilitator.transaction settlement))
                    (Some (PayAIFacilitator.settle_network settlement))
                    (Some price_usdc) None)
     end)
    (fun e => ret (Auth.invalid ("PayAI error: " ++ str_exn e))).

Definition _verify_native_onchain_payment (self : t) (now : Z)
    (tx_hash chain : string) : M World Auth.t :=
  match middleware self with
  | None => ret (Auth.invalid "KAMIYO native middleware not configured")
  | Some mw => _validate_onchain_payment mw now tx_hash chain
  end.

Definition _verify_native_token (self : t) (now : Z) (token : string)
  : M World Auth.t :=
  match middleware self with
  | None => ret (Auth.invalid "KAMIYO native middleware not configured")
  | Some mw => _validate_payment_token mw now token
  end.

Definition no_valid_payment : Auth.t :=
  Auth.invalid "No valid payment authorization found".

(** Step 3 of [verify_payment] and the final [return]. *)
Definition token_tier (self : t) (now : Z) (request : Request.t)
  : M World Auth.t :=
  match Request.header request "x-payment-token" with
  | Some payment_token =>
      if String.eqb payment_token "" then ret no_valid_payment
      else
        result <- _verify_native_token self now payment_token ;;
        if Auth.is_valid result then ret result
        else ret no_valid_payment
  | None => ret no_valid_payment
  end.

(** Step 2 of [verify_payment], then on to step 3. *)
Definition onchain_tier (self : t) (now : Z) (request : Request.t)
  : M World Auth.t :=
  match Request.header request "x-payment-tx",
        Request.header request "x-payment-chain" with
  | Some payment_tx, Some payment_chain =>
      if String.eqb payment_tx "" || String.eqb payment_chain ""
      then token_tier self now request
      else
        result <- _verify_native_onchain_payment self now
                    payment_tx payment_chain ;;
        record_payment_attempt self
          (mkAttempt now (Request.path request) "kamiyo_native"
             (Auth.is_valid result) None (Auth.from_address result)
             (Auth.error result)) ;;;
        if Auth.is_valid result then ret result
        else token_tier self now request
  | _, _ => token_tier self now request
  end.

Definition verify_payment (self : t) (now : Z) (request : Request.t)
  : M World Auth.t :=
  match Request.header request "x-payment" with
  | Some payment_header =>
      if String.eqb payment_header "" then onchain_tier self now request
      else
        result <- _verify_payai_payment self now request payment_header ;;
        record_payment_attempt self
          (mkAttempt now (Request.path request) "payai"
             (Auth.is_valid result) (Auth.amount_usdc result)
             (Auth.payer result) (Auth.error result)) ;;;
        if Auth.is_valid result then ret result
        else onchain_tier self now request
  | None => onchain_tier self now request
  end.

(** One entry of [payment_options] in the 402 body. *)
Record PaymentOption : Type := mkOption {
  provider : string;
  option_type : string;
  priority : Z;
  recommended : bool;
  supported_chains : list string;
  accepts : list PayAIFacilitator.PaymentRequirement;
  payment_addresses : list (string * string)
}.

Record Body : Type := mkBody {
  payment_required : bool;
  endpoint : string;
  amount_usdc : Q;
  payment_options : list PaymentOption
}.

Definition create_402_response (self : t) (endpoint : string)
    (price_usdc : Q) : Body :=
  let native_addresses :=
    match middleware self with
    | Some _ =>
        map (fun chain =>
               (chain, PaymentVerifier.get_payment_address (verifier self)
                         chain))
            (PaymentVerifier.get_supported_chains (verifier self))
    | None => []
    end in
  let payai_402 :=
    PayAIFacilitator.create_402_response (payai self) endpoint price_usdc
      ("KAMIYO Security Intelligence - " ++ endpoint)
      ["base"; "solana"; "polygon"] in
  let first :=
    mkOption "PayAI Network" "facilitator" 1 true
             ["solana"; "base"; "polygon"; "avalanche"; "sei"; "iotex"]
             payai_402 [] in
  let second :=
    match native_addresses with
    | [] => []
    | _ =>
        [mkOption "KAMIYO Native" "direct_transfer" 2 false
                  (map fst native_addresses) [] native_addresses]
    end in
  mkBody true endpoint price_usdc (first :: second).

End UnifiedPaymentGateway.

(** ** Request interceptor ([api/x402/middleware.py]) *)

Module X402Middleware.
Import Py.
Local Open Scope py_scope.

Record t : Type := mkMiddleware {
  payment_tracker : PaymentTracker.t;
  config : X402Config.t;
  payment_gateway : option UnifiedPaymentGateway.t;
  (** the module-level [payment_verifier] *)
  verifier : PaymentVerifier.t;
  (** [str] of a [float] *)
  str_float : Q -> string
}.

Definition _validate_payment_token (tracker : PaymentTracker.t) (now : Z)
    (token : string) : M World Auth.t :=
  try_except
    (payment_record <- PaymentTracker.get_payment_by_token tracker now token ;;
     match payment_record with
     | None => ret (Auth.invalid "Invalid payment token")
     | Some payment_record =>
         (* self.payment_tracker.get_current_time() *)
         lift_outcome (PaymentTracker.getattr "get_current_time") ;;;
         let current_time := now in
         if PaymentTracker.expires_at payment_record <? current_time
         then ret (Auth.invalid "Payment token expired")
         else if PaymentTracker.requests_remaining payment_record <=? 0
         then ret (Auth.invalid "No requests remaining")
         else ret (Auth.mk true None
                     (Some (PaymentTracker.id payment_record))
                     (Some "token") None None None None None None)
     end)
    (fun e => ret (Auth.invalid (str_exn e))).

Definition _validate_onchain_payment (tracker : PaymentTracker.t)
    (payment_verifier : PaymentVerifier.t) (now : Z)
    (tx_hash chain : string) : M World Auth.t :=
  try_except
    (let verification :=
       PaymentVerifier.verify_payment payment_verifier now tx_hash chain in
     if negb (PaymentVerifier.is_valid verification) then
       ret (Auth.invalid
              (UnifiedPaymentGateway.or_default
                 (PaymentVerifier.error_message verification)
                 "Payment verification failed"))
     else if Qlt_bool (PaymentVerifier.amount_usdc verification)
                      (PaymentVerifier.min_payment_amount payment_verifier)
     then
       ret (Auth.invalid
              ("Payment amount too small: "
               ++ PaymentVerifier.str_decimal payment_verifier
                    (PaymentVerifier.amount_usdc verification)
               ++ " USDC"))
     else
       payment_record <-
         PaymentTracker.call_create_payment_record tracker now
           (PaymentTracker.mkKwargs
              (Some tx_hash) (Some chain)
              (Some (PaymentVerifier.amount_usdc verification))
              (Some (PaymentVerifier.from_address verification))
              None None None
              (Some (PaymentVerifier.risk_score verification))) ;;
       ret (Auth.mk true None
              (Some (PaymentTracker.id payment_record))
              (Some "onchain")
              (Some (PaymentVerifier.risk_score verification))
              None None None None None))
    (fun e => ret (Auth.invalid (str_exn e))).

(** The middleware as the gateway sees it. *)
Definition as_native (tracker : PaymentTracker.t)
    (payment_verifier : PaymentVerifier.t)
  : UnifiedPaymentGateway.NativeMiddleware :=
  UnifiedPaymentGateway.mkNative
    (_validate_onchain_payment tracker payment_verifier)
    (_validate_payment_token tracker).

(** [__init__]: the gateway is built around this very middleware. *)
Definition init (tracker : PaymentTracker.t) (cfg : X402Config.t)
    (payment_verifier : PaymentVerifier.t) (use_unified_gateway : bool)
    (payai : PayAIFacilitator.t)
    (analytics : Attempt -> M World unit) (str_float : Q -> string) : t :=
  mkMiddleware tracker cfg
    (if use_unified_gateway
     then Some (UnifiedPaymentGateway.mkGateway tracker cfg
                  (Some (as_native tracker payment_verifier))
                  payai analytics payment_verifier)
     else None)
    payment_verifier str_float.

Definition _should_skip_payment_check (request : Request.t) : bool :=
  if String.eqb (Request.method request) "OPTIONS" then true
  else if existsb (String.eqb (Request.path request)) ["/ready"; "/health"]
  then true
  else if existsb (String.eqb (Request.path request))
                  ["/docs"; "/redoc"; "/openapi.json"]
  then true
  else
    match Request.header request "authorization" with
    | Some auth_header =>
        negb (String.eqb auth_header "") && startswith "Bearer " auth_header
    | None => false
    end.

Record PaymentConfig : Type := mkPaymentConfig {
  price : Q;
  endpoint : string;
  pc_method : string
}.

(** [require_payment_paths] lists every priced endpoint with the single
    method [GET]. *)
Definition _get_payment_config (self : t) (request : Request.t)
  : option PaymentConfig :=
  match dict_get (X402Config.endpoint_prices (config self))
                 (Request.path request) with
  | Some path_price =>
      if existsb (String.eqb (Request.method request)) ["GET"]
      then Some (mkPaymentConfig path_price (Request.path request)
                                 (Request.method request))
      else None
  | None => None
  end.

(** The legacy path, taken when no gateway is configured. *)
Definition _get_payment_authorization (self : t) (now : Z)
    (request : Request.t) : M World (option Auth.t) :=
  if truthy_str (Request.header request "x-payment-token") then
    r <- _validate_payment_token (payment_tracker self) now
           (match Request.header request "x-payment-token" with
            | Some s => s | None => "" end) ;;
    ret (Some r)
  else
    let payment_chain :=
      match Request.header request "x-payment-chain" with
      | Some c => c | None => "base" end in
    match Request.header request "x-payment-tx" with
    | Some payment_tx =>
        if String.eqb payment_tx "" then ret None
        else
          r <- _validate_onchain_payment (payment_tracker self)
                 (verifier self) now payment_tx payment_chain ;;
          ret (Some r)
    | None => ret None
    end.

(** The body of a 402 answer: the gateway's multi-provider body, or the
    legacy body with the supported chains and their addresses. *)
Inductive Content : Type :=
| MultiFacilitator (body : UnifiedPaymentGateway.Body)
| Legacy (endpoint method : string) (amount_usdc : Q)
         (payment_addresses : list (string * string)).

Inductive Response : Type :=
| Forwarded
| JSONResponse (status_code : Z) (content : Content)
               (headers : list (string * string)).

Definition _create_402_response (self : t) (request : Request.t)
    (payment_config : PaymentConfig) : Response :=
  let payment_details :=
    match payment_gateway self with
    | Some gw =>
        MultiFacilitator
          (UnifiedPaymentGateway.create_402_response gw
             (endpoint payment_config) (price payment_config))
    | None =>
        Legacy (endpoint payment_config) (pc_method payment_config)
               (price payment_config)
               (map (fun chain =>
                       (chain,
                        PaymentVerifier.get_payment_address (verifier self)
                          chain))
                    (PaymentVerifier.get_supported_chains (verifier self)))
    end in
  JSONResponse 402 payment_details
    [("X-Payment-Required", "true");
     ("X-Payment-Amount", str_float self (price payment_config));
     ("X-Payment-Currency", "USDC")].

(** [await call_next(request)]: the request goes on to the handler; what
    the handler answers is not the middleware's concern. *)
Definition call_next (request : Request.t) : M World Response :=
  ret Forwarded.

(** The authorization step of [dispatch]. *)
Definition authorize (self : t) (now : Z) (request : Request.t)
  : M World (option Auth.t) :=
  match payment_gateway self with
  | Some gw =>
      r <- UnifiedPaymentGateway.verify_payment gw now request ;;
      ret (Some r)
  | None => _get_payment_authorization self now request
  end.

(** The usage-recording call of [dispatch]: the price lands in the
    [method] parameter, the remaining parameters keep their defaults. *)
Definition track_usage (self : t) (now : Z) (request : Request.t)
    (payment_config : PaymentConfig) (payment_auth : Auth.t)
  : M World unit :=
  match Auth.payment_id payment_auth with
  | None => raise (KeyError "'payment_id'")
  | Some payment_id =>
      PaymentTracker.record_usage (payment_tracker self) now payment_id
        (Request.path request) (str_float self (price payment_config))
        200 None None None
  end.

Definition dispatch (self : t) (now : Z) (request : Request.t)
  : M World Response :=
  try_except
    (if negb (X402Config.enabled (config self)) then call_next request
     else if _should_skip_payment_check request then call_next request
     else
       match _get_payment_config self request with
       | None => call_next request
       | Some payment_config =>
           authorization <- attempt (authorize self now request) ;;
           match authorization with
           | Raise _ =>
               ret (_create_402_response self request payment_config)
           | Return (Some auth) =>
               if Auth.is_valid auth then
                 try_except
                   (track_usage self now request payment_config auth)
                   (fun _ => ret tt) ;;;
                 call_next request
               else ret (_create_402_response self request payment_config)
           | Return None =>
               ret (_create_402_response self request payment_config)
           end
       end)
    (fun _ => call_next request).

End X402Middleware.

(** ** Ledger properties: vocabulary *)

(** Conservation of one payment row and of the whole payments table. *)
Definition conserved (p : X402Payment.t) : Prop :=
  0 <= X402Payment.requests_used p <= X402Payment.requests_allocated p.

Definition ledger_conserved (db : Session) : Prop :=
  Forall conserved (payments db).

(** A sequence of consume calls, each with the clock reading at the call
    and the payment id it names. *)
Fixpoint consume_all (db : Session) (calls : list (Z * Z)) : Session :=
  match calls with
  | [] => db
  | (now, payment_id) :: rest =>
      consume_all (fst (X402Database.update_payment_usage db now payment_id))
                  rest
  end.

(** The rows of the payments table that carry a transaction hash. *)
Definition rows_with_tx_hash (db : Session) (tx_hash : string)
  : list X402Payment.t :=
  filter (fun p => String.eqb (X402Payment.tx_hash p) tx_hash) (payments db).

Definition has_tx_hash (db : Session) (tx_hash : string) : bool :=
  match X402Database.get_payment_by_tx_hash db tx_hash with
  | Some _ => true
  | None => false
  end.

(** The row [create_payment] inserts for a transaction hash not yet known. *)
Definition new_row (tracker : PaymentTracker.t) (db : Session) (now : Z)
    (tx_hash chain : string) (amount : Q) (from_address to_address : string)
    (block_number confirmations : Z) (risk : Q) : X402Payment.t :=
  X402Payment.mk (next_id (map X402Payment.id (payments db)))
    tx_hash chain amount from_address to_address block_number confirmations
    "verified" risk
    (Py.int_of_Q (amount * inject_Z (PaymentTracker.requests_per_dollar tracker)))
    0 now (Some now)
    (now + PaymentTracker.token_expiry_hours tracker * 3600) now.

(** ** Periodic sweeps ([api/x402/tasks.py]) *)

Module Tasks.

(** The task [cleanup_expired_payments]: marks, deletes nothing. *)
Definition cleanup_expired_payments (db : Session) (now : Z) : Session :=
  mkSession
    (map (fun p => if X402Database.is_sweepable now p
                   then X402Database.mark_expired now p else p)
         (payments db))
    (tokens db) (usage_records db).

(** The task [cleanup_expired_tokens]. *)
Definition cleanup_expired_tokens (db : Session) (now : Z) : Session :=
  mkSession (payments db)
    (filter (fun tk => negb (X402Token.expires_at tk <? now)) (tokens db))
    (usage_records db).

End Tasks.

(** ** Histories of ledger operations *)

(** One operation on the ledger, as a request or a periodic job issues
    it. *)
Inductive LedgerCall : Type :=
| RecordPayment (tx_hash chain : string) (amount_usdc : Q)
                (from_address to_address : string)
                (block_number confirmations : Z) (risk_score : Q)
| MintToken (payment_id : Z) (raw_token : string)
| ResolveToken (raw_token : string)
| RecordUsage (payment_id : Z) (endpoint method : string) (status_code : Z)
| SweepExpired
| ExpirePaymentsTask
| DeleteTokensTask.

Definition run_call (tracker : PaymentTracker.t) (now : Z) (c : LedgerCall)
  : Py.M World unit :=
  match c with
  | RecordPayment tx_hash chain amount_usdc from_address to_address
                  block_number confirmations risk_score =>
      Py.bind (PaymentTracker.create_payment_record tracker now tx_hash chain
                 amount_usdc from_address to_address block_number
                 confirmations risk_score)
              (fun _ => Py.ret tt)
  | MintToken payment_id raw_token =>
      Py.bind (PaymentTracker.generate_payment_token tracker now payment_id
                 raw_token)
              (fun _ => Py.ret tt)
  | ResolveToken raw_token =>
      Py.bind (PaymentTracker.get_payment_by_token tracker now raw_token)
              (fun _ => Py.ret tt)
  | RecordUsage payment_id endpoint method status_code =>
      PaymentTracker.record_usage tracker now payment_id endpoint method
        status_code None None None
  | SweepExpired =>
      Py.bind (PaymentTracker.cleanup_expired_payments tracker now)
              (fun _ => Py.ret tt)
  | ExpirePaymentsTask =>
      db_op (fun db => (Tasks.cleanup_expired_payments db now, tt))
  | DeleteTokensTask =>
      db_op (fun db => (Tasks.cleanup_expired_tokens db now, tt))
  end.

(** A history: the operations with the clock reading at each.  An
    operation that raises leaves the state it reached; the next one runs
    from there. *)
Fixpoint run_calls (tracker : PaymentTracker.t)
    (calls : list (Z * LedgerCall)) (w : World) : World :=
  match calls with
  | [] => w
  | (now, c) :: rest => run_calls tracker rest (snd (run_call tracker now c w))
  end.

(** The clock never runs backwards along a history that starts at [t]. *)
Fixpoint clock_monotone (t : Z) (calls : list (Z * LedgerCall)) : Prop :=
  match calls with
  | [] => True
  | (now, _) :: rest => t <= now /\ clock_monotone now rest
  end.

(** The clock reading of the last operation ([t] for the empty history). *)
Fixpoint last_reading (t : Z) (calls : list (Z * LedgerCall)) : Z :=
  match calls with
  | [] => t
  | (now, _) :: rest => last_reading now rest
  end.

(** Every token points to a payment row and carries that row's expiry. *)
Definition tokens_inherit_expiry (db : Session) : Prop :=
  forall tk, In tk (tokens db) ->
    exists p, X402Database.get_payment_by_id db (X402Token.payment_id tk)
              = Some p
              /\ X402Token.expires_at tk = X402Payment.expires_at p.

(** Every payment marked expired was past its expiry by time [t]. *)
Definition expired_are_past (db : Session) (t : Z) : Prop :=
  forall p, In p (payments db) ->
    X402Payment.status p = "expired" -> X402Payment.expires_at p < t.

Definition ledger_coherent (db : Session) (t : Z) : Prop :=
  tokens_inherit_expiry db /\ expired_are_past db t.

(** ** Verifier properties: vocabulary *)

(** What a verification result carries, by outcome: a success has the
    baseline score [0.1] and no error text; a failure has an error text
    and one of the provisional scores of the failure paths. *)
Definition well_scored (r : PaymentVerifier.PaymentVerification) : Prop :=
  if PaymentVerifier.is_valid r then
    (PaymentVerifier.risk_score r == 1 # 10)%Q
    /\ PaymentVerifier.error_message r = None
  else
    (exists msg, PaymentVerifier.error_message r = Some msg)
    /\ In (PaymentVerifier.risk_score r) [3 # 10; 1 # 2; 7 # 10; 8 # 10; 1%Q]
    /\ (3 # 10 <= PaymentVerifier.risk_score r)%Q
    /\ (PaymentVerifier.risk_score r <= 1)%Q.

(** ** Concrete ledgers used in the examples *)

Module Examples.
Import Py.

(** A tracker on the default configuration (1000 requests per dollar,
    24 hours of validity); the digest is a stand-in that tags its input. *)
Definition tracker : PaymentTracker.t :=
  PaymentTracker.init X402Config.default (fun s => "sha256:" ++ s).

Definition fresh : World := mkWorld empty_session [].

(** A payment of 0.001 USDC, worth one request, recorded at time 1000. *)
Definition paid : World :=
  snd (PaymentTracker.create_payment_record tracker 1000 "0xabc" "base"
         (1 # 1000) "0xpayer" "0xmerchant" 0 1 (1 # 10) fresh).

(** A token minted against that payment at time 1001. *)
Definition minted : World :=
  snd (PaymentTracker.generate_payment_token tracker 1001 1 "secret" paid).

(** The single request consumed at time 1002. *)
Definition exhausted : World :=
  snd (PaymentTracker.record_usage tracker 1002 1 "/exploits" "GET" 200
         None None None minted).

(** A payment of 10 USDC, worth 10000 requests, with a token. *)
Definition funded : World :=
  snd (PaymentTracker.generate_payment_token tracker 1001 1 "secret"
         (snd (PaymentTracker.create_payment_record tracker 1000 "0xdef"
                 "base" (10 # 1) "0xpayer" "0xmerchant" 0 1 (1 # 10)
                 fresh))).

(** *** A chain on which transaction [0xtx1] pays 10 USDC to the gateway

    Block 100 holds the transaction, the head is at block 110, the
    block's timestamp is 999000 and the clock reads 1000000. *)
Definition transfer_topic : string :=
  "ddf252ad1be2c89b69c2b068fc378daa952ba7f163c4a11628f55a4df523b3ef".

Definition payer_topic : string :=
  "0000000000000000000000001111111111111111111111111111111111111111".

Definition gateway_topic : string :=
  "000000000000000000000000742d35cc6634c0532925a3b8d4b5e3a3a3b7b7b7".

Definition usdc_transfer : PaymentVerifier.Log :=
  PaymentVerifier.mkLog
    [transfer_topic; payer_topic; gateway_topic]
    "0x833589fCD6eDb6E08f4c7C32D4f71b54bdA02913"
    "0000000000000000000000000000000000000000000000000000000000989680".

Definition receipt : PaymentVerifier.TxReceipt :=
  PaymentVerifier.mkReceipt 1 100 [usdc_transfer].

Definition node : PaymentVerifier.Web3 :=
  PaymentVerifier.mkWeb3
    (fun h => if String.eqb h "0xtx1" then Return (Some receipt)
              else Raise (TransactionNotFound h))
    (fun h => Return (PaymentVerifier.mkTx
                        "0x1111111111111111111111111111111111111111"
                        (Some "0x833589fCD6eDb6E08f4c7C32D4f71b54bdA02913")))
    (Return 110)
    (fun _ => Return 999000)
    transfer_topic.

Definition verifier : PaymentVerifier.t :=
  PaymentVerifier.mkVerifier X402Config.default
    [("base", node); ("ethereum", node)] None (fun _ => None) 0
    (fun _ => "<Decimal>").

Definition clock : Z := 1000000.

(** *** Risk scorers *)

(** [RiskScorer(max_score=0.3)]: every other parameter at its default. *)
Definition cautious_scorer : RiskScorer.t :=
  RiskScorer.mkScorer 0.3 0.8 None (fun _ => "<score>").

(** A scorer whose external service answers 200 with the given
    ["risk_score"] entry. *)
Definition scorer_with_service (entry : RiskScorer.JsonField)
  : RiskScorer.t :=
  RiskScorer.mkScorer 1.0 0.8
    (Some (fun _ _ _ => Return (RiskScorer.mkResponse 200 (Return entry))))
    (fun _ => "<score>").

Definition payer : string := "0x1111111111111111111111111111111111111111".

(** *** Facilitators, analytics sinks, middlewares and requests *)

(** A facilitator that accepts the proof and then fails to settle. *)
Definition payai_settle_fails : PayAIFacilitator.t :=
  PayAIFacilitator.mkFacilitator "0xmerchant"
    (fun _ _ =>
       Return (PayAIFacilitator.mkVerificationResult true "0xpayer" None))
    (fun _ _ =>
       Return (PayAIFacilitator.mkSettlementResult false "0xpayer" "" "base"
                 (Some "insufficient_funds"))).

(** A facilitator that settles in transaction [0xabc]. *)
Definition payai_settles : PayAIFacilitator.t :=
  PayAIFacilitator.mkFacilitator "0xmerchant"
    (fun _ _ =>
       Return (PayAIFacilitator.mkVerificationResult true "0xpayer" None))
    (fun _ _ =>
       Return (PayAIFacilitator.mkSettlementResult true "0xpayer" "0xabc"
                 "base" None)).

(** An analytics sink that is down. *)
Definition analytics_down : Attempt -> M World unit :=
  fun _ => raise (Exception "analytics sink unavailable").

Definition middleware (payai : PayAIFacilitator.t)
    (analytics : Attempt -> M World unit) : X402Middleware.t :=
  X402Middleware.init tracker X402Config.default verifier true payai
    analytics (fun _ => "<float>").

Definition gateway (payai : PayAIFacilitator.t)
    (analytics : Attempt -> M World unit) : UnifiedPaymentGateway.t :=
  UnifiedPaymentGateway.mkGateway tracker X402Config.default
    (Some (X402Middleware.as_native tracker verifier))
    payai analytics verifier.

Definition request_with_proof : Request.t :=
  Request.mk "GET" "/exploits" [("X-PAYMENT", "proof")].

Definition request_with_transaction : Request.t :=
  Request.mk "GET" "/exploits"
    [("X-Payment-Tx", "0xtx1"); ("X-Payment-Chain", "base")].

Definition request_with_token : Request.t :=
  Request.mk "GET" "/exploits" [("X-Payment-Token", "secret")].

(** The history that leads to [exhausted]. *)
Definition history : list (Z * LedgerCall) :=
  [(1000, RecordPayment "0xabc" "base" (1 # 1000) "0xpayer" "0xmerchant"
            0 1 (1 # 10));
   (1001, MintToken 1 "secret");
   (1002, RecordUsage 1 "/exploits" "GET" 200)].

(** Six factor scores that all equal the default reject threshold. *)
Definition all_at_threshold : RiskScorer.PresentFactors :=
  RiskScorer.mkPresent (Some 0.8%float) (Some 0.8%float) (Some 0.8%float)
                       (Some 0.8%float) (Some 0.8%float) (Some 0.8%float).
End Examples.

(** ** Further vocabulary: risk scorer *)



(** ** Further concrete inputs *)

Module Scenarios.
Import Py.



End Scenarios.

(** ** Further vocabulary: chain verifier *)


(** * Theorems *)

(** ** Ledger: consumption *)

Lemma use_one_request_id now p :
  X402Payment.id (X402Database.use_one_request now p) = X402Payment.id p.
Proof. reflexivity. Qed.

Lemma use_one_request_conserved now p :
  conserved p ->
  X402Payment.requests_used p < X402Payment.requests_allocated p ->
  conserved (X402Database.use_one_request now p).
Proof.
  unfold conserved; cbn; lia.
Qed.

Lemma update_row_conserved now payment_id rows p :
  Forall conserved rows ->
  find (fun q => X402Payment.id q =? payment_id) rows = Some p ->
  X402Payment.requests_used p < X402Payment.requests_allocated p ->
  Forall conserved
    (X402Database.update_row payment_id (X402Database.use_one_request now) rows).
Proof.
  induction 1 as [| q rest Hq Hrest IH]; intros Hfind Hlt; cbn in *.
  - constructor.
  - destruct (X402Payment.id q =? payment_id).
    + injection Hfind as ->. constructor; auto using use_one_request_conserved.
    + constructor; auto.
Qed.

Lemma find_update_row now payment_id rows p :
  find (fun q => X402Payment.id q =? payment_id) rows = Some p ->
  find (fun q => X402Payment.id q =? payment_id)
       (X402Database.update_row payment_id (X402Database.use_one_request now)
          rows)
  = Some (X402Database.use_one_request now p).
Proof.
  induction rows as [| q rest IH]; cbn; intros Hfind.
  - discriminate.
  - destruct (X402Payment.id q =? payment_id) eqn:E.
    + injection Hfind as ->. cbn. now rewrite E.
    + cbn. rewrite E. auto.
Qed.

Lemma update_payment_usage_conserved db now payment_id :
  ledger_conserved db ->
  ledger_conserved (fst (X402Database.update_payment_usage db now payment_id)).
Proof.
  unfold ledger_conserved, X402Database.update_payment_usage,
    X402Database.get_payment_by_id.
  intros Hdb.
  destruct (find _ (payments db)) as [p |] eqn:Hfind; [| exact Hdb].
  destruct (X402Payment.requests_allocated p <=? X402Payment.requests_used p)
    eqn:Hfull; [exact Hdb |].
  cbn. apply Z.leb_gt in Hfull. eapply update_row_conserved; eauto.
Qed.

Lemma consume_all_conserved calls :
  forall db, ledger_conserved db -> ledger_conserved (consume_all db calls).
Proof.
  induction calls as [| [now payment_id] rest IH]; intros db Hdb; cbn.
  - exact Hdb.
  - apply IH. now apply update_payment_usage_conserved.
Qed.

Lemma create_payment_conserved db now tx_hash chain amount from_address
    to_address block_number confirmations risk allocated expires :
  0 <= allocated ->
  ledger_conserved db ->
  ledger_conserved
    (fst (X402Database.create_payment db now tx_hash chain amount
            from_address to_address block_number confirmations risk
            allocated expires)).
Proof.
  intros Hpos Hdb. unfold X402Database.create_payment, ledger_conserved.
  destruct (find _ (payments db)); cbn [fst payments]; [exact Hdb |].
  apply Forall_app. split; [exact Hdb |].
  constructor; [| constructor]. unfold conserved. cbn. lia.
Qed.

(** C4. Starting from a ledger in which every payment satisfies
    0 <= requests_used <= requests_allocated (as every payment does when it
    is created with a non-negative allocation), the bound holds for every
    payment after each call of any sequence of consume calls; a consume on a
    payment with requests_used >= requests_allocated returns false and
    leaves the ledger as it was; and the consume that brings requests_used
    up to requests_allocated succeeds and leaves the payment with status
    'used'. *)
Theorem consume_conservation :
  forall (db : Session) (calls : list (Z * Z)),
    ledger_conserved db ->
    (forall k, ledger_conserved (consume_all db (firstn k calls)))
    /\ (forall now tx_hash chain amount from_address to_address block_number
               confirmations risk allocated expires,
          0 <= allocated ->
          ledger_conserved
            (fst (X402Database.create_payment db now tx_hash chain amount
                    from_address to_address block_number confirmations risk
                    allocated expires)))
    /\ (forall now payment_id p,
          X402Database.get_payment_by_id db payment_id = Some p ->
          X402Payment.requests_allocated p <= X402Payment.requests_used p ->
          X402Database.update_payment_usage db now payment_id = (db, false))
    /\ (forall now payment_id p,
          X402Database.get_payment_by_id db payment_id = Some p ->
          X402Payment.requests_used p + 1 = X402Payment.requests_allocated p ->
          exists db' p',
            X402Database.update_payment_usage db now payment_id = (db', true)
            /\ X402Database.get_payment_by_id db' payment_id = Some p'
            /\ X402Payment.status p' = "used"
            /\ X402Payment.requests_used p' = X402Payment.requests_allocated p'
            /\ X402Payment.requests_used p' = X402Payment.requests_used p + 1).
Proof.
  intros db calls Hdb. split; [| split; [| split]].
  - intros k. now apply consume_all_conserved.
  - intros. now apply create_payment_conserved.
  - intros now payment_id p Hget Hfull.
    unfold X402Database.update_payment_usage. rewrite Hget.
    apply Z.leb_le in Hfull. now rewrite Hfull.
  - intros now payment_id p Hget Hlast.
    unfold X402Database.update_payment_usage. rewrite Hget.
    assert (Hroom : (X402Payment.requests_allocated p
                     <=? X402Payment.requests_used p) = false)
      by (apply Z.leb_gt; lia).
    rewrite Hroom.
    eexists. exists (X402Database.use_one_request now p).
    split; [reflexivity |].
    split.
    + unfold X402Database.get_payment_by_id in *. cbn.
      now apply find_update_row.
    + cbn. rewrite <- Hlast.
      rewrite Z.leb_refl. repeat split; lia.
Qed.

Lemma consume_conservation_witness :
  ledger_conserved (session Examples.paid)
  /\ ledger_conserved
       (consume_all (session Examples.paid) (firstn 2 [(1002, 1); (1003, 1)])).
Proof.
  assert (H : ledger_conserved (session Examples.paid)).
  { repeat constructor; vm_compute; discriminate. }
  split; [exact H |].
  exact (proj1 (consume_conservation (session Examples.paid)
                  [(1002, 1); (1003, 1)] H) 2%nat).
Defined.

(** ** Ledger: recording a payment *)

Lemma find_none_filter {A} (f : A -> bool) (l : list A) :
  find f l = None -> filter f l = [].
Proof.
  induction l as [| a l IH]; cbn; [reflexivity |].
  destruct (f a); [discriminate | exact IH].
Qed.

Lemma find_some_filter {A} (f : A -> bool) (l : list A) (a : A) :
  find f l = Some a -> (1 <= List.length (filter f l))%nat.
Proof.
  induction l as [| b l IH]; cbn; [discriminate |].
  destruct (f b); cbn; [lia | exact IH].
Qed.

Lemma find_app_none {A} (f : A -> bool) (l : list A) (a : A) :
  find f l = None -> f a = true -> find f (l ++ [a]) = Some a.
Proof.
  induction l as [| b l IH]; cbn; intros Hnone Ha.
  - now rewrite Ha.
  - destruct (f b); [discriminate | auto].
Qed.

Lemma create_payment_record_existing tracker now tx_hash chain amount
    from_address to_address block_number confirmations risk w row :
  X402Database.get_payment_by_tx_hash (session w) tx_hash = Some row ->
  PaymentTracker.create_payment_record tracker now tx_hash chain amount
    from_address to_address block_number confirmations risk w
  = (Py.Return (PaymentTracker._payment_to_dict row), w).
Proof.
  intros Hget. destruct w as [db mc]. cbn in Hget.
  unfold PaymentTracker.create_payment_record, Py.bind, db_op, Py.ret.
  cbn [session metrics_cache]. now rewrite Hget.
Qed.

Lemma create_payment_record_new tracker now tx_hash chain amount
    from_address to_address block_number confirmations risk w :
  X402Database.get_payment_by_tx_hash (session w) tx_hash = None ->
  let row := new_row tracker (session w) now tx_hash chain amount
               from_address to_address block_number confirmations risk in
  PaymentTracker.create_payment_record tracker now tx_hash chain amount
    from_address to_address block_number confirmations risk w
  = (Py.Return (PaymentTracker._payment_to_dict row),
     mkWorld (mkSession (payments (session w) ++ [row]) (tokens (session w))
                        (usage_records (session w)))
             (metrics_cache w)).
Proof.
  intros Hget. destruct w as [db mc]. cbn in Hget.
  unfold PaymentTracker.create_payment_record, Py.bind, db_op, Py.ret,
    X402Database.create_payment.
  unfold X402Database.get_payment_by_tx_hash in *.
  cbn [session metrics_cache]. rewrite Hget. cbn [session metrics_cache].
  rewrite Hget. reflexivity.
Qed.

(** C5. Two calls of create_payment_record with the same transaction hash
    (whatever the other arguments and clock readings): both return the same
    data, the second call leaves the ledger exactly as the first left it,
    and the table holds one row for the hash when it held none before (no
    row is added when it already held one). *)
Theorem record_payment_idempotent :
  forall (tracker : PaymentTracker.t) (w : World) (tx_hash : string)
         (now1 now2 : Z) (chain1 chain2 : string) (amount1 amount2 : Q)
         (from1 from2 to1 to2 : string) (block1 block2 confs1 confs2 : Z)
         (risk1 risk2 : Q),
    let first :=
      PaymentTracker.create_payment_record tracker now1 tx_hash chain1
        amount1 from1 to1 block1 confs1 risk1 w in
    let second :=
      PaymentTracker.create_payment_record tracker now2 tx_hash chain2
        amount2 from2 to2 block2 confs2 risk2 (snd first) in
    (exists row, fst first = Py.Return (PaymentTracker._payment_to_dict row)
                 /\ X402Database.get_payment_by_tx_hash
                      (session (snd first)) tx_hash = Some row)
    /\ fst second = fst first
    /\ snd second = snd first
    /\ List.length (rows_with_tx_hash (session (snd second)) tx_hash)
       = Nat.max 1 (List.length (rows_with_tx_hash (session w) tx_hash))
    /\ List.length (payments (session (snd second)))
       = (List.length (payments (session w))
          + (if has_tx_hash (session w) tx_hash then 0 else 1))%nat.
Proof.
  intros tracker w tx_hash now1 now2 chain1 chain2 amount1 amount2
    from1 from2 to1 to2 block1 block2 confs1 confs2 risk1 risk2.
  unfold has_tx_hash, rows_with_tx_hash.
  destruct (X402Database.get_payment_by_tx_hash (session w) tx_hash)
    as [row |] eqn:Hget; cbv zeta.
  - rewrite (create_payment_record_existing _ _ _ _ _ _ _ _ _ _ _ _ Hget).
    cbn [fst snd].
    rewrite (create_payment_record_existing _ _ _ _ _ _ _ _ _ _ _ _ Hget).
    cbn [fst snd]. repeat split.
    + now exists row.
    + apply find_some_filter in Hget. lia.
    + lia.
  - rewrite (create_payment_record_new _ _ _ _ _ _ _ _ _ _ _ Hget).
    cbv zeta. cbn [fst snd].
    set (row := new_row tracker (session w) now1 tx_hash chain1 amount1
                  from1 to1 block1 confs1 risk1).
    set (w1 := mkWorld _ _).
    assert (Hnew : X402Database.get_payment_by_tx_hash (session w1) tx_hash
                   = Some row).
    { apply find_app_none; [exact Hget |]. cbn. apply String.eqb_refl. }
    rewrite (create_payment_record_existing _ _ _ _ _ _ _ _ _ _ _ _ Hnew).
    cbn [fst snd]. repeat split.
    + now exists row.
    + subst w1. cbn [session payments].
      rewrite filter_app, (find_none_filter _ _ Hget). cbn.
      now rewrite String.eqb_refl.
    + subst w1. cbn [session payments]. now rewrite length_app.
Qed.

(** ** Ledger: usage records *)

(** C10, counterexample.  On a payment whose single request is already
    consumed, the usage counter cannot be incremented, and record_usage
    raises without appending a usage row. *)
Lemma record_usage_needs_metering :
  let w := Examples.exhausted in
  let r := PaymentTracker.record_usage Examples.tracker 1003 1
             "/exploits" "GET" 200 None None None w in
  snd (X402Database.update_payment_usage (session w) 1003 1) = false
  /\ fst r = Py.Raise
               (Py.ValueError "Failed to update payment usage for payment 1")
  /\ usage_records (session (snd r)) = usage_records (session w)
  /\ List.length (usage_records (session w)) = 1%nat.
Proof. vm_compute. repeat split. Qed.

(** C10, amended.  record_usage appends a usage row exactly when the
    increment of the payment's usage counter succeeded: then it returns
    normally and the usage table grows by the row it was given; when the
    increment failed it raises ValueError and the ledger is left as it
    was. *)
Theorem record_usage_follows_metering :
  forall (tracker : PaymentTracker.t) (w : World) (now payment_id : Z)
         (endpoint method : string) (status_code : Z)
         (response_time_ms : option Z) (ip_address user_agent : option string),
    let metered :=
      X402Database.update_payment_usage (session w) now payment_id in
    let r := PaymentTracker.record_usage tracker now payment_id endpoint
               method status_code response_time_ms ip_address user_agent w in
    if snd metered then
      fst r = Py.Return tt
      /\ payments (session (snd r)) = payments (fst metered)
      /\ usage_records (session (snd r))
         = (usage_records (session w)
            ++ [X402Usage.mk
                  (next_id (map X402Usage.id (usage_records (session w))))
                  payment_id endpoint method status_code response_time_ms
                  ip_address user_agent now])%list
    else
      fst r = Py.Raise
                (Py.ValueError ("Failed to update payment usage for payment "
                                ++ Py.str_int payment_id))
      /\ session (snd r) = session w
      /\ metrics_cache (snd r) = metrics_cache w.
Proof.
  intros tracker [db mc] now payment_id endpoint method status_code
    response_time_ms ip_address user_agent.
  cbv zeta.
  unfold PaymentTracker.record_usage, Py.bind, db_op, Py.ret, Py.raise.
  cbn [session metrics_cache].
  unfold X402Database.update_payment_usage.
  destruct (X402Database.get_payment_by_id db payment_id) as [p |];
    [| cbn; auto].
  destruct (X402Payment.requests_allocated p <=? X402Payment.requests_used p);
    cbn; auto.
Qed.

(** ** Ledger: resolving a token *)

Section Coherence.

Implicit Types (db : Session) (p : X402Payment.t) (tk : X402Token.t).

Lemma find_app_some {A} (f : A -> bool) (l r : list A) (a : A) :
  find f l = Some a -> find f (l ++ r) = Some a.
Proof.
  induction l as [| b l IH]; cbn; [discriminate |].
  destruct (f b); auto.
Qed.

Lemma find_map_key {A} (key : A -> Z) (g : A -> A) (k : Z) (l : list A) :
  (forall x, key (g x) = key x) ->
  find (fun x => key x =? k) (map g l)
  = option_map g (find (fun x => key x =? k) l).
Proof.
  intros Hkey. induction l as [| a l IH]; cbn; [reflexivity |].
  rewrite Hkey. destruct (key a =? k); [reflexivity | exact IH].
Qed.

Lemma find_update_row_expiry now payment_id q rows p :
  find (fun x => X402Payment.id x =? q) rows = Some p ->
  exists p',
    find (fun x => X402Payment.id x =? q)
         (X402Database.update_row payment_id
            (X402Database.use_one_request now) rows) = Some p'
    /\ X402Payment.expires_at p' = X402Payment.expires_at p.
Proof.
  induction rows as [| a rows IH]; cbn; [discriminate |].
  destruct (X402Payment.id a =? payment_id) eqn:Ea.
  - cbn. destruct (X402Payment.id a =? q) eqn:Eq.
    + intros [= <-]. eexists. split; reflexivity.
    + intros Hfind. exists p. split; [exact Hfind | reflexivity].
  - cbn. destruct (X402Payment.id a =? q).
    + intros [= <-]. exists a. split; reflexivity.
    + exact IH.
Qed.

Lemma In_update_row now payment_id rows p' :
  In p' (X402Database.update_row payment_id
           (X402Database.use_one_request now) rows) ->
  In p' rows
  \/ exists p, In p rows /\ p' = X402Database.use_one_request now p.
Proof.
  induction rows as [| a rows IH]; cbn; [tauto |].
  destruct (X402Payment.id a =? payment_id); cbn.
  - intros [<- | Hin]; [right; exists a; auto | left; auto].
  - intros [<- | Hin]; [left; auto |].
    destruct (IH Hin) as [H | (p & Hp & ->)]; [left; auto |].
    right. exists p. auto.
Qed.

Lemma In_touch_row token_id now rows tk' :
  In tk' (X402Database.touch_row token_id now rows) ->
  exists tk, In tk rows
             /\ X402Token.payment_id tk' = X402Token.payment_id tk
             /\ X402Token.expires_at tk' = X402Token.expires_at tk.
Proof.
  induction rows as [| a rows IH]; cbn; [tauto |].
  destruct (X402Token.id a =? token_id); cbn.
  - intros [Heq | Hin]; [exists a; subst tk'; cbn; auto | exists tk'; auto].
  - intros [Heq | Hin]; [exists tk'; auto |].
    destruct (IH Hin) as (tk & Htk & Hrest). exists tk. auto.
Qed.

Lemma used_is_not_expired now p :
  X402Payment.status (X402Database.use_one_request now p) = "expired" ->
  X402Payment.status p = "expired".
Proof.
  cbn. destruct (_ <=? _); [discriminate | auto].
Qed.

Lemma coherent_later db t t' :
  ledger_coherent db t -> t <= t' -> ledger_coherent db t'.
Proof.
  intros [Htok Hexp] Hle. split; [exact Htok |].
  intros p Hin Hst. specialize (Hexp p Hin Hst). lia.
Qed.

(** Coherence depends on the payments and tokens tables only. *)
Lemma coherent_same_tables db db' t :
  payments db' = payments db -> tokens db' = tokens db ->
  ledger_coherent db t -> ledger_coherent db' t.
Proof.
  intros Hp Ht [Htok Hexp]. split.
  - intros tk Hin. rewrite Ht in Hin.
    destruct (Htok tk Hin) as (p & Hget & Heq).
    exists p. split; [| exact Heq].
    unfold X402Database.get_payment_by_id in *. now rewrite Hp.
  - intros p Hin. rewrite Hp in Hin. now apply Hexp.
Qed.

Lemma create_payment_coherent db t now tx_hash chain amount from_address
    to_address block_number confirmations risk allocated expires :
  ledger_coherent db t ->
  ledger_coherent
    (fst (X402Database.create_payment db now tx_hash chain amount
            from_address to_address block_number confirmations risk
            allocated expires)) t.
Proof.
  intros [Htok Hexp]. unfold X402Database.create_payment.
  destruct (find _ (payments db)); cbn [fst]; [split; assumption |].
  split.
  - intros tk Hin. cbn in Hin.
    destruct (Htok tk Hin) as (p & Hget & Heq).
    exists p. split; [| exact Heq].
    unfold X402Database.get_payment_by_id in *. cbn.
    now apply find_app_some.
  - intros p Hin. cbn in Hin. apply in_app_or in Hin.
    destruct Hin as [Hin | [<- | []]]; [now apply Hexp | discriminate].
Qed.

Lemma create_token_coherent db t now token_hash payment_id p :
  X402Database.get_payment_by_id db payment_id = Some p ->
  ledger_coherent db t ->
  ledger_coherent
    (fst (X402Database.create_token db now token_hash payment_id
            (X402Payment.expires_at p))) t.
Proof.
  intros Hget [Htok Hexp]. split; [| exact Hexp].
  intros tk Hin. cbn in Hin. apply in_app_or in Hin.
  destruct Hin as [Hin | [<- | []]].
  - exact (Htok tk Hin).
  - exists p. split; [exact Hget | reflexivity].
Qed.

Lemma resolve_coherent db t now token_hash :
  ledger_coherent db t ->
  ledger_coherent
    (fst (X402Database.get_payment_by_token_hash db now token_hash)) t.
Proof.
  intros [Htok Hexp]. unfold X402Database.get_payment_by_token_hash.
  destruct (X402Database.get_token_by_hash db token_hash) as [tk0 |];
    [| split; assumption].
  destruct (negb _); [split; assumption |].
  cbn [fst]. split; [| exact Hexp].
  intros tk Hin. cbn in Hin.
  destruct (In_touch_row _ _ _ _ Hin) as (tk1 & Hin1 & Hpid & Hexpiry).
  destruct (Htok tk1 Hin1) as (p & Hget & Heq).
  exists p. rewrite Hpid, Hexpiry. split; assumption.
Qed.

Lemma update_payment_usage_coherent db t now payment_id :
  ledger_coherent db t ->
  ledger_coherent
    (fst (X402Database.update_payment_usage db now payment_id)) t.
Proof.
  intros [Htok Hexp]. unfold X402Database.update_payment_usage.
  destruct (X402Database.get_payment_by_id db payment_id) as [p0 |];
    [| split; assumption].
  destruct (_ <=? _); [split; assumption |].
  cbn [fst]. split.
  - intros tk Hin. cbn in Hin.
    destruct (Htok tk Hin) as (p & Hget & Heq).
    destruct (find_update_row_expiry now payment_id _ _ _ Hget)
      as (p' & Hget' & Hsame).
    exists p'. split; [exact Hget' | congruence].
  - intros p' Hin. cbn in Hin.
    destruct (In_update_row _ _ _ _ Hin) as [Hold | (p & Hp & ->)].
    + now apply Hexp.
    + intros Hst. apply used_is_not_expired in Hst.
      exact (Hexp p Hp Hst).
Qed.

Lemma expire_payments_coherent db t now :
  t <= now ->
  ledger_coherent db t ->
  ledger_coherent (Tasks.cleanup_expired_payments db now) now.
Proof.
  intros Hle [Htok Hexp]. split.
  - intros tk Hin. cbn in Hin.
    destruct (Htok tk Hin) as (p & Hget & Heq).
    unfold X402Database.get_payment_by_id in *. cbn.
    rewrite find_map_key by (intros x; destruct (X402Database.is_sweepable now x);
                             reflexivity).
    rewrite Hget. cbn. eexists. split; [reflexivity |].
    destruct (X402Database.is_sweepable now p); exact Heq.
  - intros p' Hin. cbn in Hin. apply in_map_iff in Hin.
    destruct Hin as (p & <- & Hin).
    destruct (X402Database.is_sweepable now p) eqn:Hsweep.
    + intros _. cbn. unfold X402Database.is_sweepable in Hsweep.
      apply andb_prop in Hsweep. destruct Hsweep as [_ Hlt].
      now apply Z.ltb_lt in Hlt.
    + intros Hst. specialize (Hexp p Hin Hst). lia.
Qed.

Lemma delete_tokens_coherent db t now :
  ledger_coherent db t ->
  ledger_coherent (Tasks.cleanup_expired_tokens db now) t.
Proof.
  intros [Htok Hexp]. split; [| exact Hexp].
  intros tk Hin. cbn in Hin. apply filter_In in Hin.
  exact (Htok tk (proj1 Hin)).
Qed.

End Coherence.

Lemma create_payment_record_session tracker now tx_hash chain amount
    from_address to_address block_number confirmations risk w :
  session (snd (PaymentTracker.create_payment_record tracker now tx_hash
                  chain amount from_address to_address block_number
                  confirmations risk w))
  = fst (X402Database.create_payment (session w) now tx_hash chain amount
           from_address to_address block_number confirmations risk
           (Py.int_of_Q
              (amount * inject_Z (PaymentTracker.requests_per_dollar tracker)))
           (now + PaymentTracker.token_expiry_hours tracker * 3600)).
Proof.
  destruct (X402Database.get_payment_by_tx_hash (session w) tx_hash)
    as [row |] eqn:Hget.
  - rewrite (create_payment_record_existing _ _ _ _ _ _ _ _ _ _ _ _ Hget).
    unfold X402Database.create_payment.
    unfold X402Database.get_payment_by_tx_hash in Hget. now rewrite Hget.
  - rewrite (create_payment_record_new _ _ _ _ _ _ _ _ _ _ _ Hget).
    unfold X402Database.create_payment.
    unfold X402Database.get_payment_by_tx_hash in Hget. now rewrite Hget.
Qed.

Lemma run_call_coherent tracker now c w t :
  t <= now ->
  ledger_coherent (session w) t ->
  ledger_coherent (session (snd (run_call tracker now c w))) now.
Proof.
  intros Hle Hco. apply coherent_later with (t' := now) in Hco; [| exact Hle].
  destruct c as [tx_hash chain amount from_address to_address block_number
                   confirmations risk
                | payment_id raw_token | raw_token
                | payment_id endpoint method status_code | | |];
    cbn [run_call].
  - unfold Py.bind at 1.
    destruct (PaymentTracker.create_payment_record _ _ _ _ _ _ _ _ _ _ w)
      as [[d | e] w'] eqn:Hrun;
      (replace w' with (snd (PaymentTracker.create_payment_record tracker now
                               tx_hash chain amount from_address to_address
                               block_number confirmations risk w))
         by (now rewrite Hrun));
      cbn [snd Py.ret]; rewrite create_payment_record_session;
      now apply create_payment_coherent.
  - destruct w as [db mc]. cbn [session] in Hco.
    unfold PaymentTracker.generate_payment_token, Py.bind, db_op, Py.ret,
      Py.raise. cbn [session metrics_cache].
    destruct (X402Database.get_payment_by_id db payment_id) as [p |] eqn:Hget;
      [| exact Hco].
    destruct (negb _); [exact Hco |].
    cbn [snd session].
    exact (create_token_coherent db now now _ payment_id p Hget Hco).
  - destruct w as [db mc]. cbn [session] in Hco.
    unfold PaymentTracker.get_payment_by_token, Py.bind, db_op, Py.ret.
    cbn [session metrics_cache].
    pose proof (resolve_coherent db now now
                  (PaymentTracker._hash_token tracker raw_token) Hco) as H.
    destruct (X402Database.get_payment_by_token_hash db now _)
      as [db' [p |]]; exact H.
  - destruct w as [db mc]. cbn [session] in Hco.
    unfold PaymentTracker.record_usage, Py.bind, db_op, Py.ret, Py.raise.
    cbn [session metrics_cache].
    pose proof (update_payment_usage_coherent db now now payment_id Hco) as H.
    destruct (X402Database.update_payment_usage db now payment_id)
      as [db' [|]]; cbn [negb snd session fst] in *; [| exact H].
    eapply coherent_same_tables; [| | exact H]; reflexivity.
  - destruct w as [db mc]. cbn [session] in Hco.
    unfold PaymentTracker.cleanup_expired_payments, Py.bind, db_op, Py.ret.
    cbn [session metrics_cache snd].
    apply coherent_same_tables
      with (db := Tasks.cleanup_expired_tokens
                    (Tasks.cleanup_expired_payments db now) now);
      try reflexivity.
    apply delete_tokens_coherent.
    apply expire_payments_coherent with (t := now); [lia | exact Hco].
  - destruct w as [db mc]. cbn.
    apply expire_payments_coherent with (t := now); [lia | exact Hco].
  - destruct w as [db mc]. cbn. now apply delete_tokens_coherent.
Qed.

Lemma run_calls_coherent tracker calls :
  forall w t,
    clock_monotone t calls ->
    ledger_coherent (session w) t ->
    ledger_coherent (session (run_calls tracker calls w))
                    (last_reading t calls).
Proof.
  induction calls as [| [now c] rest IH]; intros w t Hclock Hco; cbn.
  - exact Hco.
  - destruct Hclock as [Hle Hrest].
    apply IH; [exact Hrest |]. now apply run_call_coherent with (t := t).
Qed.

Lemma fresh_coherent t : ledger_coherent (session Examples.fresh) t.
Proof.
  split; intros x Hin; destruct Hin.
Qed.

(** In a coherent ledger no token that is still valid belongs to a
    payment marked expired. *)
Lemma coherent_resolve_not_expired tracker w t now token d :
  ledger_coherent (session w) t ->
  t <= now ->
  fst (PaymentTracker.get_payment_by_token tracker now token w)
  = Py.Return (Some d) ->
  PaymentTracker.status d <> "expired".
Proof.
  intros [Htok Hexp] Hle. destruct w as [db mc]. cbn [session] in *.
  unfold PaymentTracker.get_payment_by_token, Py.bind, db_op, Py.ret,
    X402Database.get_payment_by_token_hash.
  cbn [session metrics_cache].
  destruct (X402Database.get_token_by_hash db
              (PaymentTracker._hash_token tracker token)) as [tk |] eqn:Htk;
    [| discriminate].
  unfold X402Token.is_valid.
  destruct (now <? X402Token.expires_at tk) eqn:Hvalid; [| discriminate].
  cbn [negb]. unfold X402Database.token_payment,
    X402Database.get_payment_by_id. cbn [payments].
  apply Z.ltb_lt in Hvalid.
  apply find_some in Htk. destruct Htk as [Hin _].
  destruct (Htok tk Hin) as (p & Hget & Heq).
  unfold X402Database.get_payment_by_id in Hget. rewrite Hget.
  cbn. intros [= <-]. cbn. intros Hst.
  apply find_some in Hget. destruct Hget as [Hp _].
  specialize (Hexp p Hp Hst). lia.
Qed.

(** C3, counterexample.  A payment worth one request is recorded, a token
    is minted against it, the request is consumed: the payment's status is
    'used', and resolving the token still returns it. *)
Lemma resolve_token_returns_used_payment :
  Examples.exhausted
  = run_calls Examples.tracker Examples.history Examples.fresh
  /\ exists d,
       fst (PaymentTracker.get_payment_by_token Examples.tracker 1003
              "secret" Examples.exhausted) = Py.Return (Some d)
       /\ PaymentTracker.status d = "used"
       /\ PaymentTracker.requests_remaining d = 0.
Proof.
  split; [vm_compute; reflexivity |].
  eexists. vm_compute. repeat split.
Qed.

(** C3, amended.  Resolving a raw token returns nothing when no token row
    has its hash, and nothing once the token's own expires_at has passed
    (expires_at <= now), leaving the ledger untouched; otherwise it touches
    the token and returns the payment the token belongs to, whatever that
    payment's status (a 'used' payment included).  In a ledger reached from
    the empty one by the ledger's operations and the periodic sweeps, with
    a clock that never runs backwards, it never returns a payment whose
    status is 'expired'. *)
Theorem resolve_token_checks_token_expiry :
  forall (tracker : PaymentTracker.t) (now : Z) (token : string),
    (forall w : World,
        let r := PaymentTracker.get_payment_by_token tracker now token w in
        match X402Database.get_token_by_hash (session w)
                (PaymentTracker._hash_token tracker token) with
        | None => fst r = Py.Return None /\ session (snd r) = session w
        | Some tk =>
            if X402Token.expires_at tk <=? now
            then fst r = Py.Return None /\ session (snd r) = session w
            else
              fst r = Py.Return
                        (option_map PaymentTracker._payment_to_dict
                           (X402Database.get_payment_by_id (session w)
                              (X402Token.payment_id tk)))
              /\ payments (session (snd r)) = payments (session w)
              /\ tokens (session (snd r))
                 = X402Database.touch_row (X402Token.id tk) now
                     (tokens (session w))
        end)
    /\ (forall (t0 : Z) (calls : list (Z * LedgerCall))
               (d : PaymentTracker.PaymentDict),
           clock_monotone t0 calls ->
           last_reading t0 calls <= now ->
           fst (PaymentTracker.get_payment_by_token tracker now token
                  (run_calls tracker calls Examples.fresh))
           = Py.Return (Some d) ->
           PaymentTracker.status d <> "expired").
Proof.
  intros tracker now token. split.
  - intros [db mc]. cbv zeta.
    unfold PaymentTracker.get_payment_by_token, Py.bind, db_op, Py.ret,
      X402Database.get_payment_by_token_hash.
    cbn [session metrics_cache].
    destruct (X402Database.get_token_by_hash db
                (PaymentTracker._hash_token tracker token)) as [tk |];
      [| cbn; auto].
    unfold X402Token.is_valid. rewrite Z.leb_antisym.
    destruct (now <? X402Token.expires_at tk); cbn; [| auto].
    unfold X402Database.token_payment, X402Database.get_payment_by_id.
    cbn [payments].
    destruct (find _ (payments db)); cbn; auto.
  - intros t0 calls d Hclock Hlast Hresolve.
    eapply coherent_resolve_not_expired; [| exact Hlast | exact Hresolve].
    apply run_calls_coherent; [exact Hclock | apply fresh_coherent].
Qed.

Lemma resolve_token_checks_token_expiry_witness :
  clock_monotone 0 Examples.history
  /\ last_reading 0 Examples.history <= 1003
  /\ exists d,
       fst (PaymentTracker.get_payment_by_token Examples.tracker 1003
              "secret"
              (run_calls Examples.tracker Examples.history Examples.fresh))
       = Py.Return (Some d)
       /\ PaymentTracker.status d <> "expired".
Proof.
  assert (Hclock : clock_monotone 0 Examples.history)
    by (cbn; repeat split; lia).
  assert (Hlast : last_reading 0 Examples.history <= 1003) by (cbn; lia).
  split; [exact Hclock |]. split; [exact Hlast |].
  eexists. split; [vm_compute; reflexivity |].
  apply (proj2 (resolve_token_checks_token_expiry Examples.tracker 1003
                  "secret")
               0 Examples.history _ Hclock Hlast).
  vm_compute. reflexivity.
Defined.

(** ** Chain verifier *)

Lemma min2_baseline : (Py.min2 (1 # 10) 1 == 1 # 10)%Q.
Proof. reflexivity. Qed.

Lemma failure_well_scored tx_hash chain amount from_address to_address
    block_number confirmations risk msg :
  In risk [3 # 10; 1 # 2; 7 # 10; 8 # 10; 1%Q] ->
  well_scored (PaymentVerifier.failure tx_hash chain amount from_address
                 to_address block_number confirmations risk msg).
Proof.
  intros Hin. unfold well_scored, PaymentVerifier.failure. cbn.
  split; [now exists msg |]. split; [exact Hin |].
  cbn in Hin.
  destruct Hin as [<- | [<- | [<- | [<- | [<- | []]]]]];
    split; discriminate.
Qed.

Ltac provisional :=
  apply failure_well_scored; cbn; tauto.

Lemma evm_body_well_scored v now tx_hash chain cfg r :
  PaymentVerifier.evm_body v now tx_hash chain cfg = Py.Return r ->
  well_scored r.
Proof.
  unfold PaymentVerifier.evm_body.
  destruct (Py.dict_get _ chain) as [web3 |]; [| discriminate].
  destruct (PaymentVerifier.get_transaction_receipt web3 tx_hash)
    as [[tx_receipt |] | e]; try discriminate.
  2: { intros [= <-]. provisional. }
  destruct (negb _). { intros [= <-]. provisional. }
  destruct (PaymentVerifier.get_transaction web3 tx_hash) as [tx | e];
    [| discriminate].
  destruct (PaymentVerifier.eth_block_number web3) as [current_block | e];
    [| discriminate].
  destruct (_ <? _). { intros [= <-]. provisional. }
  destruct (PaymentVerifier.scan_logs _ _ _ _) as [[[amount from_] to_] | e];
    [| discriminate].
  destruct (Qeq_bool amount 0). { intros [= <-]. provisional. }
  destruct (Py.Qlt_bool amount _). { intros [= <-]. provisional. }
  destruct (PaymentVerifier.get_block_timestamp web3 _) as [timestamp | e];
    [| discriminate].
  destruct (_ <? _). { intros [= <-]. provisional. }
  intros [= <-]. unfold well_scored. cbn. split; reflexivity.
Qed.

Lemma _verify_evm_payment_well_scored v now tx_hash chain cfg :
  well_scored (PaymentVerifier._verify_evm_payment v now tx_hash chain cfg).
Proof.
  unfold PaymentVerifier._verify_evm_payment.
  destruct (PaymentVerifier.evm_body v now tx_hash chain cfg) as [r | e] eqn:E.
  - eapply evm_body_well_scored; eauto.
  - destruct e; provisional.
Qed.

Lemma solana_body_well_scored v tx_hash cfg r :
  PaymentVerifier.solana_body v tx_hash cfg = Py.Return r ->
  well_scored r.
Proof.
  unfold PaymentVerifier.solana_body.
  destruct (PaymentVerifier.solana_client v) as [client |].
  2: { intros [= <-]. provisional. }
  destruct (PaymentVerifier.signature_from_string v tx_hash).
  { intros [= <-]. provisional. }
  destruct (PaymentVerifier.sol_get_transaction client tx_hash)
    as [[tx_data |] | e]; try discriminate.
  2: { intros [= <-]. provisional. }
  destruct (PaymentVerifier.meta_err tx_data).
  { intros [= <-]. provisional. }
  destruct (PaymentVerifier.sol_get_slot client) as [value | e];
    [| discriminate].
  destruct (PaymentVerifier.scan_instructions _ _)
    as [[[amount from_] to_] | e]; [| discriminate].
  destruct (Qeq_bool amount 0). { intros [= <-]. provisional. }
  destruct (_ <? _). { intros [= <-]. provisional. }
  destruct (Py.Qlt_bool amount _). { intros [= <-]. provisional. }
  intros [= <-]. unfold well_scored. cbn. split; reflexivity.
Qed.

Lemma _verify_solana_payment_well_scored v tx_hash cfg :
  well_scored (PaymentVerifier._verify_solana_payment v tx_hash cfg).
Proof.
  unfold PaymentVerifier._verify_solana_payment.
  destruct (PaymentVerifier.solana_body v tx_hash cfg) as [r | e] eqn:E.
  - eapply solana_body_well_scored; eauto.
  - provisional.
Qed.

(** C8, counterexample.  Transaction 0xtx1 on base carries a USDC transfer
    of 10 units to the gateway with 10 confirmations: verification
    succeeds, and the risk score it returns is 0.1, not 0. *)
Lemma verified_payment_scores_one_tenth :
  let r := PaymentVerifier.verify_payment Examples.verifier Examples.clock
             "0xtx1" "base" in
  PaymentVerifier.is_valid r = true
  /\ (PaymentVerifier.amount_usdc r == 10)%Q
  /\ (PaymentVerifier.risk_score r == 1 # 10)%Q
  /\ ~ (PaymentVerifier.risk_score r == 0)%Q.
Proof.
  vm_compute. repeat split; discriminate.
Qed.

(** C8, amended.  For every transaction hash and every chain name,
    verify_payment returns risk score 0.1 and no error text on a successful
    verification, and on every failure path (an unsupported chain included)
    an error text together with a provisional risk score that is one of
    0.3, 0.5, 0.7, 0.8, 1.0, hence between 0.3 and 1.0. *)
Theorem verify_payment_well_scored :
  forall (v : PaymentVerifier.t) (now : Z) (tx_hash chain : string),
    well_scored (PaymentVerifier.verify_payment v now tx_hash chain).
Proof.
  intros v now tx_hash chain. unfold PaymentVerifier.verify_payment.
  destruct (Py.dict_get (PaymentVerifier.chains v) chain) as [cfg |].
  - destruct (String.eqb chain "solana").
    + apply _verify_solana_payment_well_scored.
    + apply _verify_evm_payment_well_scored.
  - provisional.
Qed.

(** ** Risk scorer *)

Section Aggregation.
Local Open Scope float_scope.

Ltac six_cases f :=
  destruct f as [[?a |] [?c |] [?m |] [?ch |] [?ad |] [?ex |]].

Ltac split_tests :=
  repeat match goal with
         | |- context [if ?b then _ else _] => destruct b
         end.

(** The loop over the dict computes the weighted average of the factors
    the dict holds, and the result is clamped. *)
Lemma weighted_score_dict_of self f :
  RiskScorer._calculate_weighted_score self (RiskScorer.dict_of f)
  = Py.Return (RiskScorer.clamped_average self f).
Proof. six_cases f; reflexivity. Qed.

Lemma numbers_dict_of f :
  RiskScorer.present_in (RiskScorer.numbers (RiskScorer.dict_of f)) = f.
Proof. six_cases f; reflexivity. Qed.

Lemma clamp_inside self x :
  (x <? 0.0) = false -> (RiskScorer.max_score self <? x) = false ->
  RiskScorer.clamp self x = x.
Proof.
  intros H0 H1. unfold RiskScorer.clamp, RiskScorer.max_float.
  rewrite H0. unfold RiskScorer.min_float. now rewrite H1.
Qed.

Lemma accumulate_numbers d :
  forall ts tw r,
    RiskScorer.accumulate d ts tw = Py.Return r ->
    map (fun it => (fst it, RiskScorer.Number (snd it))) (RiskScorer.numbers d)
    = d.
Proof.
  induction d as [| [k [x | kind]] d IH]; intros ts tw r H; cbn in *.
  - reflexivity.
  - f_equal. eapply IH, H.
  - discriminate.
Qed.

(** Once the weighted sum has gone through, the dict holds numbers
    only: [numbers] leaves nothing out. *)
Lemma weighted_score_returns_numbers self d x :
  RiskScorer._calculate_weighted_score self d = Py.Return x ->
  map (fun it => (fst it, RiskScorer.Number (snd it))) (RiskScorer.numbers d)
  = d.
Proof.
  unfold RiskScorer._calculate_weighted_score.
  destruct (RiskScorer.accumulate d 0 0) as [r | e] eqn:Hloop;
    [| discriminate].
  intros _. eapply accumulate_numbers, Hloop.
Qed.

Lemma age_score_listed now ts :
  In (RiskScorer._score_transaction_age now ts) RiskScorer.age_scores.
Proof.
  unfold RiskScorer._score_transaction_age, RiskScorer.age_scores.
  destruct ts; split_tests; cbn; auto 10.
Qed.

Lemma confirmations_score_listed c chain :
  In (RiskScorer._score_confirmations c chain)
     RiskScorer.confirmations_scores.
Proof.
  unfold RiskScorer._score_confirmations, RiskScorer.confirmations_scores.
  split_tests; cbn; auto 10.
Qed.

Lemma amount_score_listed a :
  In (RiskScorer._score_amount a) RiskScorer.amount_scores.
Proof.
  unfold RiskScorer._score_amount, RiskScorer.amount_scores.
  split_tests; cbn; auto 10.
Qed.

Lemma chain_score_listed chain :
  In (RiskScorer._score_chain chain) RiskScorer.chain_scores.
Proof.
  unfold RiskScorer._score_chain, RiskScorer.chain_risk, Py.dict_get,
    RiskScorer.chain_scores.
  split_tests; cbn; auto 10.
Qed.

Lemma address_score_listed address chain :
  exists s,
    RiskScorer._score_address_reputation address chain = Some s
    /\ In s RiskScorer.address_scores.
Proof.
  unfold RiskScorer._score_address_reputation, RiskScorer.address_scores.
  split_tests; eexists; (split; [reflexivity | cbn; auto 10]).
Qed.

Lemma every_plain_average_ok_holds :
  RiskScorer.every_plain_average_ok = true.
Proof. vm_compute. reflexivity. Qed.

Lemma plain_average_listed a c m ch ad :
  In a RiskScorer.age_scores -> In c RiskScorer.confirmations_scores ->
  In m RiskScorer.amount_scores -> In ch RiskScorer.chain_scores ->
  In ad RiskScorer.address_scores ->
  RiskScorer.plain_average_ok a c m ch ad = true.
Proof.
  intros Ha Hc Hm Hch Had.
  pose proof every_plain_average_ok_holds as H.
  unfold RiskScorer.every_plain_average_ok in H.
  rewrite forallb_forall in H. specialize (H a Ha).
  rewrite forallb_forall in H. specialize (H c Hc).
  rewrite forallb_forall in H. specialize (H m Hm).
  rewrite forallb_forall in H. specialize (H ch Hch).
  rewrite forallb_forall in H. exact (H ad Had).
Qed.

(** What [score_payment] does, by what the external service sent. *)
Lemma score_payment_runs self now tx_hash chain amount_usdc from_address
    to_address block_number confirmations tx_timestamp :
  exists ad,
    RiskScorer._score_address_reputation from_address chain = Some ad
    /\ In ad RiskScorer.address_scores
    /\ match RiskScorer._get_external_risk_score self tx_hash chain
               from_address with
       | Some (RiskScorer.Other kind) =>
           RiskScorer.score_payment self now tx_hash chain amount_usdc
             from_address to_address block_number confirmations tx_timestamp
           = Py.Raise (RiskScorer.mul_type_error kind)
       | external =>
           let f := RiskScorer.mkPresent
                      (Some (RiskScorer._score_transaction_age now
                               tx_timestamp))
                      (Some (RiskScorer._score_confirmations confirmations
                               chain))
                      (Some (RiskScorer._score_amount amount_usdc))
                      (Some (RiskScorer._score_chain chain))
                      (Some ad)
                      match external with
                      | Some (RiskScorer.Number x) => Some x
                      | _ => None
                      end in
           let total := RiskScorer.clamp self (RiskScorer.weighted_average f) in
           exists why,
             RiskScorer.score_payment self now tx_hash chain amount_usdc
               from_address to_address block_number confirmations
               tx_timestamp
             = Py.Return
                 (RiskScorer.mkRiskScore total
                    (RiskScorer.numbers (RiskScorer.dict_of f))
                    why
                    (RiskScorer.reject_threshold self <=? total))
             /\ ((RiskScorer.reject_threshold self <=? total) = false ->
                 why = ("Low risk: All checks passed (score: "
                        ++ RiskScorer.format_2f self total ++ ")")%string)
       end.
Proof.
  destruct (address_score_listed from_address chain) as (ad & Had & Hin).
  exists ad. split; [exact Had |]. split; [exact Hin |].
  unfold RiskScorer.score_payment, RiskScorer.collect_factors.
  rewrite Had.
  destruct (RiskScorer._get_external_risk_score self tx_hash chain
              from_address) as [[x | kind] |]; cbn zeta.
  - match goal with
    | |- context [RiskScorer.mkPresent ?a ?c ?m ?ch ?d ?e] =>
        set (f := RiskScorer.mkPresent a c m ch d e)
    end.
    change (RiskScorer.dict_add _ "external_api" _)
      with (RiskScorer.dict_of f).
    rewrite weighted_score_dict_of.
    change (RiskScorer.clamped_average self f)
      with (RiskScorer.clamp self (RiskScorer.weighted_average f)).
    destruct (RiskScorer.reject_threshold self
              <=? RiskScorer.clamp self (RiskScorer.weighted_average f));
      eexists; (split; [reflexivity |]); intros Hlow;
      [discriminate | reflexivity].
  - reflexivity.
  - match goal with
    | |- context [RiskScorer.mkPresent ?a ?c ?m ?ch ?d ?e] =>
        set (f := RiskScorer.mkPresent a c m ch d e)
    end.
    change (RiskScorer.dict_add _ "external_api" _)
      with (RiskScorer.dict_of f).
    rewrite weighted_score_dict_of.
    change (RiskScorer.clamped_average self f)
      with (RiskScorer.clamp self (RiskScorer.weighted_average f)).
    destruct (RiskScorer.reject_threshold self
              <=? RiskScorer.clamp self (RiskScorer.weighted_average f));
      eexists; (split; [reflexivity |]); intros Hlow;
      [discriminate | reflexivity].
Qed.
(** With [max_score] at its default and no external service configured,
    the clamp never applies, and the score stays below 0.8. *)
Lemma plain_score_payment self now tx_hash chain amount_usdc from_address
    to_address block_number confirmations tx_timestamp :
  RiskScorer.max_score self = 1.0 ->
  RiskScorer.external_api self = None ->
  exists rs,
    RiskScorer.score_payment self now tx_hash chain amount_usdc from_address
      to_address block_number confirmations tx_timestamp
    = Py.Return rs
    /\ RiskScorer.score rs
       = RiskScorer.spec_weighted_average
           (RiskScorer.present_in (RiskScorer.factors rs))
    /\ (0.8 <=? RiskScorer.score rs) = false
    /\ RiskScorer.is_high_risk rs
       = (RiskScorer.reject_threshold self <=? RiskScorer.score rs)
    /\ (RiskScorer.is_high_risk rs = false ->
        RiskScorer.reason rs
        = ("Low risk: All checks passed (score: "
           ++ RiskScorer.format_2f self (RiskScorer.score rs) ++ ")")%string).
Proof.
  intros Hmax Hnone.
  destruct (score_payment_runs self now tx_hash chain amount_usdc
              from_address to_address block_number confirmations
              tx_timestamp) as (ad & _ & Hin & Hrun).
  assert (Hext : RiskScorer._get_external_risk_score self tx_hash chain
                   from_address = None).
  { unfold RiskScorer._get_external_risk_score. now rewrite Hnone. }
  rewrite Hext in Hrun. cbn zeta in Hrun.
  destruct Hrun as (why & Hrun & Hwhy).
  pose proof (plain_average_listed _ _ _ _ _
                (age_score_listed now tx_timestamp)
                (confirmations_score_listed confirmations chain)
                (amount_score_listed amount_usdc)
                (chain_score_listed chain) Hin) as Hok.
  unfold RiskScorer.plain_average_ok in Hok. cbn zeta in Hok.
  apply andb_prop in Hok. destruct Hok as [Hok Hthr].
  apply andb_prop in Hok. destruct Hok as [Hlow Hhigh].
  apply negb_true_iff in Hlow, Hhigh, Hthr.
  rewrite clamp_inside in Hrun, Hwhy by (rewrite ?Hmax; assumption).
  eexists. split; [exact Hrun |].
  cbn [RiskScorer.score RiskScorer.factors RiskScorer.is_high_risk
       RiskScorer.reason].
  rewrite numbers_dict_of.
  split; [reflexivity |]. split; [exact Hthr |]. split; [reflexivity |].
  exact Hwhy.
Qed.
End Aggregation.

(** What the external service sends under ["risk_score"] decides the
    run: a string makes the weighted sum raise, [null] leaves the factor
    out, and a missing key counts as [0.0]. *)
Example external_risk_score_entries :
  let run entry :=
    RiskScorer.score_payment (Examples.scorer_with_service entry)
      Examples.clock "0xtx1" "base" (10 # 1) Examples.payer "0xgateway" 100
      10 (Some 999000) in
  run (RiskScorer.NonNumeric RiskScorer.JString)
  = Py.Raise
      (Py.TypeError "can't multiply sequence by non-int of type 'float'")
  /\ (exists rs,
        run RiskScorer.Null = Py.Return rs
        /\ map fst (RiskScorer.factors rs)
           = ["age"; "confirmations"; "amount"; "chain";
              "address_reputation"])
  /\ (exists rs,
        run RiskScorer.Absent = Py.Return rs
        /\ Py.dict_get (RiskScorer.factors rs) "external_api"
           = Some 0.0%float).
Proof.
  split; [reflexivity |].
  split; eexists; (split; [vm_compute; reflexivity | reflexivity]).
Qed.

(** The sums round as binary64 sums do: six factor scores of 0.8 average
    to 0.7999999999999998, which is below the threshold 0.8. *)
Example threshold_average_rounds_below :
  RiskScorer._calculate_weighted_score
    (RiskScorer.default_scorer (fun _ => "<score>"))
    (RiskScorer.dict_of Examples.all_at_threshold)
  = Py.Return 0.7999999999999998%float
  /\ PrimFloat.leb 0.8 0.7999999999999998 = false.
Proof. split; reflexivity. Qed.

(** C9, counterexample.  A scorer constructed with max_score 0.3 scores a
    just-mined, unconfirmed payment of 10 USDC on base.  Every factor
    score lies in [0, 1]; their weighted average is 0.31666666666666665,
    while the overall score returned is 0.3. *)
Lemma lowered_max_score_caps_the_average :
  exists rs,
    RiskScorer.score_payment Examples.cautious_scorer Examples.clock "0xtx1"
      "base" (10 # 1) Examples.payer "0xgateway" 100 0 (Some Examples.clock)
    = Py.Return rs
    /\ RiskScorer.unit_interval (RiskScorer.factors rs) = true
    /\ RiskScorer.spec_weighted_average
         (RiskScorer.present_in (RiskScorer.factors rs))
       = 0.31666666666666665%float
    /\ RiskScorer.score rs = 0.3%float
    /\ PrimFloat.eqb
         (RiskScorer.score rs)
         (RiskScorer.spec_weighted_average
            (RiskScorer.present_in (RiskScorer.factors rs)))
       = false.
Proof.
  eexists. split; [vm_compute; reflexivity |].
  vm_compute. repeat split.
Qed.

(** C9, amended.  Floats are binary64 and sums run over the present
    factors in the order age, confirmations, amount, chain,
    address_reputation, external_api, from 0.0.  For every scorer and
    every input: the loop of _calculate_weighted_score yields the sum of
    score times weight over the sum of the weights, under the weights age
    0.1, confirmations 0.3, amount 0.15, chain 0.15, address_reputation
    0.2, external_api 0.1, clamped by min(max(., 0.0), max_score); with no
    factor present it yields 0.5; when the average is neither below 0.0
    nor above max_score the score is the average itself.  score_payment
    raises TypeError when the external service sent a risk_score that is
    neither a number nor null; otherwise it returns, its breakdown holds
    the named factors only, its score is the clamped average of that
    breakdown, and is_high_risk is the outcome of the test
    score >= reject_threshold.  With max_score at its default 1.0 and no
    external service configured the clamp never applies. *)
Theorem risk_score_is_clamped_average :
  forall (self : RiskScorer.t) (now : Z) (tx_hash chain : string)
         (amount_usdc : Q) (from_address to_address : string)
         (block_number confirmations : Z) (tx_timestamp : option Z),
    (forall f,
        RiskScorer._calculate_weighted_score self (RiskScorer.dict_of f)
        = Py.Return (RiskScorer.clamped_average self f))
    /\ RiskScorer._calculate_weighted_score self [] = Py.Return 0.5%float
    /\ (forall f,
           PrimFloat.ltb (RiskScorer.weighted_average f) 0.0 = false ->
           PrimFloat.ltb (RiskScorer.max_score self)
                         (RiskScorer.weighted_average f) = false ->
           RiskScorer._calculate_weighted_score self (RiskScorer.dict_of f)
           = Py.Return (RiskScorer.spec_weighted_average f))
    /\ match RiskScorer._get_external_risk_score self tx_hash chain
               from_address with
       | Some (RiskScorer.Other kind) =>
           RiskScorer.score_payment self now tx_hash chain amount_usdc
             from_address to_address block_number confirmations tx_timestamp
           = Py.Raise (RiskScorer.mul_type_error kind)
       | _ =>
           exists rs,
             RiskScorer.score_payment self now tx_hash chain amount_usdc
               from_address to_address block_number confirmations
               tx_timestamp
             = Py.Return rs
             /\ RiskScorer.numbers
                  (RiskScorer.dict_of
                     (RiskScorer.present_in (RiskScorer.factors rs)))
                = RiskScorer.factors rs
             /\ RiskScorer.any_present
                  (RiskScorer.present_in (RiskScorer.factors rs)) = true
             /\ RiskScorer.score rs
                = RiskScorer.clamped_average self
                    (RiskScorer.present_in (RiskScorer.factors rs))
             /\ RiskScorer.is_high_risk rs
                = PrimFloat.leb (RiskScorer.reject_threshold self)
                                (RiskScorer.score rs)
       end
    /\ (RiskScorer.max_score self = 1.0%float ->
        RiskScorer.external_api self = None ->
        exists rs,
          RiskScorer.score_payment self now tx_hash chain amount_usdc
            from_address to_address block_number confirmations tx_timestamp
          = Py.Return rs
          /\ RiskScorer.score rs
             = RiskScorer.spec_weighted_average
                 (RiskScorer.present_in (RiskScorer.factors rs))).
Proof.
  intros self now tx_hash chain amount_usdc from_address to_address
    block_number confirmations tx_timestamp.
  split; [intros f; apply weighted_score_dict_of |].
  split; [reflexivity |].
  split.
  { intros f Hlow Hhigh. rewrite weighted_score_dict_of.
    unfold RiskScorer.clamped_average, RiskScorer.spec_weighted_average.
    destruct (RiskScorer.any_present f); [| reflexivity].
    now rewrite clamp_inside. }
  split.
  - destruct (score_payment_runs self now tx_hash chain amount_usdc
                from_address to_address block_number confirmations
                tx_timestamp) as (ad & _ & _ & Hrun).
    destruct (RiskScorer._get_external_risk_score self tx_hash chain
                from_address) as [[x | kind] |]; [| exact Hrun |];
      cbn zeta in Hrun; destruct Hrun as (why & Hrun & _);
      (eexists; split; [exact Hrun |]);
      cbn [RiskScorer.score RiskScorer.factors RiskScorer.is_high_risk];
      rewrite numbers_dict_of; repeat split.
  - intros Hmax Hnone.
    destruct (plain_score_payment self now tx_hash chain amount_usdc
                from_address to_address block_number confirmations
                tx_timestamp Hmax Hnone) as (rs & Hrun & Hscore & _).
    exists rs. split; assumption.
Qed.

Lemma risk_score_is_clamped_average_witness :
  RiskScorer._calculate_weighted_score
    (RiskScorer.default_scorer (fun _ => "<score>"))
    (RiskScorer.dict_of Examples.all_at_threshold)
  = Py.Return (RiskScorer.spec_weighted_average Examples.all_at_threshold)
  /\ exists rs,
       RiskScorer.score_payment
         (RiskScorer.default_scorer (fun _ => "<score>"))
         Examples.clock "0xtx1" "base" (10 # 1) Examples.payer "0xgateway"
         100 10 (Some 999000)
       = Py.Return rs
       /\ RiskScorer.score rs
          = RiskScorer.spec_weighted_average
              (RiskScorer.present_in (RiskScorer.factors rs)).
Proof.
  destruct (risk_score_is_clamped_average
              (RiskScorer.default_scorer (fun _ => "<score>"))
              Examples.clock "0xtx1" "base" (10 # 1) Examples.payer
              "0xgateway" 100 10 (Some 999000))
    as (_ & _ & Hinside & _ & Hplain).
  split; [apply Hinside; reflexivity | apply Hplain; reflexivity].
Defined.

(** ** Native tiers of the interceptor *)

Lemma _validate_onchain_payment_invalid tracker verifier now tx_hash chain w :
  exists msg,
    X402Middleware._validate_onchain_payment tracker verifier now tx_hash
      chain w
    = (Py.Return (Auth.invalid msg), w).
Proof.
  unfold X402Middleware._validate_onchain_payment, Py.try_except.
  destruct (negb _); [eexists; reflexivity |].
  destruct (Py.Qlt_bool _ _); eexists; reflexivity.
Qed.

(** C1.  Transaction 0xtx1 on base is a valid transfer of 10 USDC, above
    the minimum of 0.1: the on-chain tier nevertheless answers with an
    invalid authorization whose error is the TypeError of the call to
    create_payment_record, and records nothing; the gateway reports no
    valid payment for the request that carries the two headers.  The same
    holds for every input: the on-chain tier never returns a valid
    authorization and never changes the ledger. *)
Theorem onchain_tier_never_authorizes :
  (let v := PaymentVerifier.verify_payment Examples.verifier Examples.clock
              "0xtx1" "base" in
   PaymentVerifier.is_valid v = true
   /\ Py.Qlt_bool (PaymentVerifier.amount_usdc v)
                  (PaymentVerifier.min_payment_amount Examples.verifier)
      = false
   /\ X402Middleware._validate_onchain_payment Examples.tracker
        Examples.verifier Examples.clock "0xtx1" "base" Examples.fresh
      = (Py.Return
           (Auth.invalid
              "PaymentTracker.create_payment_record() missing 3 required positional arguments: 'to_address', 'block_number', and 'confirmations'"),
         Examples.fresh)
   /\ fst (UnifiedPaymentGateway.verify_payment
             (Examples.gateway Examples.payai_settles
                PaymentAnalytics.record_payment_attempt)
             Examples.clock Examples.request_with_transaction Examples.fresh)
      = Py.Return UnifiedPaymentGateway.no_valid_payment)
  /\ (forall tracker verifier now tx_hash chain w,
        exists msg,
          X402Middleware._validate_onchain_payment tracker verifier now
            tx_hash chain w
          = (Py.Return (Auth.invalid msg), w)).
Proof.
  split.
  - vm_compute. repeat split.
  - intros. apply _validate_onchain_payment_invalid.
Qed.

Lemma _validate_payment_token_invalid tracker now token w :
  exists msg w',
    X402Middleware._validate_payment_token tracker now token w
    = (Py.Return (Auth.invalid msg), w').
Proof.
  unfold X402Middleware._validate_payment_token, Py.try_except, Py.bind.
  destruct (PaymentTracker.get_payment_by_token tracker now token w)
    as [[[record |] | e] w']; do 2 eexists; reflexivity.
Qed.

(** C2.  The token 'secret' resolves to a payment that expires at 87400
    and has 10000 requests remaining; at time 2000 the token tier answers
    with an invalid authorization whose error is the AttributeError raised
    by the lookup of get_current_time on the tracker.  The same holds for
    every input: the token tier never returns a valid authorization. *)
Theorem token_tier_never_authorizes :
  (exists d,
      fst (PaymentTracker.get_payment_by_token Examples.tracker 2000 "secret"
             Examples.funded) = Py.Return (Some d)
      /\ PaymentTracker.status d = "verified"
      /\ 2000 < PaymentTracker.expires_at d
      /\ 0 < PaymentTracker.requests_remaining d
      /\ fst (X402Middleware._validate_payment_token Examples.tracker 2000
                "secret" Examples.funded)
         = Py.Return
             (Auth.invalid
                "'PaymentTracker' object has no attribute 'get_current_time'"))
  /\ (forall tracker now token w,
        exists msg w',
          X402Middleware._validate_payment_token tracker now token w
          = (Py.Return (Auth.invalid msg), w')).
Proof.
  split.
  - eexists. vm_compute. repeat split.
  - intros. apply _validate_payment_token_invalid.
Qed.

(** ** Unified gateway *)

Lemma bind_ext {S A B} (c : Py.M S A) (k1 k2 : A -> Py.M S B) (s : S) :
  (forall a s', k1 a s' = k2 a s') -> Py.bind c k1 s = Py.bind c k2 s.
Proof.
  intros Hk. unfold Py.bind. destruct (c s) as [[a | e] s']; auto.
Qed.

Section SettlementFailure.
Import Py.
Local Open Scope py_scope.

Variable self : UnifiedPaymentGateway.t.
Variable now : Z.
Variable request : Request.t.
Variable payment_header : string.
Variable price_usdc : Q.
Variable verification : PayAIFacilitator.VerificationResult.
Variable settlement : PayAIFacilitator.SettlementResult.

Let requirement : PayAIFacilitator.PaymentRequirement :=
  PayAIFacilitator.create_payment_requirement
    (UnifiedPaymentGateway.payai self) (Request.path request) price_usdc
    ("Access to " ++ Request.path request) "base".

Hypothesis Hheader :
  Request.header request "x-payment" = Some payment_header.
Hypothesis Hnonempty : payment_header <> "".
Hypothesis Hprice :
  UnifiedPaymentGateway._get_endpoint_price self (Request.path request)
  = Some price_usdc.
Hypothesis Hverify :
  PayAIFacilitator.verify_payment (UnifiedPaymentGateway.payai self)
    payment_header requirement = Return verification.
Hypothesis Hvalid : PayAIFacilitator.is_valid verification = true.
Hypothesis Hsettle :
  PayAIFacilitator.settle_payment (UnifiedPaymentGateway.payai self)
    payment_header requirement = Return settlement.
Hypothesis Hfailed : PayAIFacilitator.success settlement = false.

Lemma payai_tier_reports_settlement_error w :
  UnifiedPaymentGateway._verify_payai_payment self now request
    payment_header w
  = (Return (Auth.invalid
               (UnifiedPaymentGateway.or_default
                  (PayAIFacilitator.error_reason settlement)
                  "PayAI settlement failed")), w).
Proof.
  unfold UnifiedPaymentGateway._verify_payai_payment, try_except, bind,
    lift_outcome, ret.
  rewrite Hprice. fold requirement. rewrite Hverify, Hvalid. cbn.
  now rewrite Hsettle, Hfailed.
Qed.

Lemma settlement_failure_falls_through w :
  UnifiedPaymentGateway.verify_payment self now request w
  = (UnifiedPaymentGateway.record_payment_attempt self
       (mkAttempt now (Request.path request) "payai" false None None
          (Some (UnifiedPaymentGateway.or_default
                   (PayAIFacilitator.error_reason settlement)
                   "PayAI settlement failed"))) ;;;
     UnifiedPaymentGateway.onchain_tier self now request) w.
Proof.
  unfold UnifiedPaymentGateway.verify_payment. rewrite Hheader.
  apply String.eqb_neq in Hnonempty. rewrite Hnonempty.
  unfold bind at 1. rewrite payai_tier_reports_settlement_error.
  unfold bind. cbn [Auth.is_valid Auth.invalid Auth.amount_usdc Auth.payer
                    Auth.error].
  destruct (UnifiedPaymentGateway.record_payment_attempt self _ w)
    as [[[] | e] w']; reflexivity.
Qed.
End SettlementFailure.

(** C7.  The facilitator verifies the proof and fails to settle it with
    reason 'insufficient_funds'; the request carries no other payment
    header.  The facilitator tier builds an invalid authorization whose
    error is 'insufficient_funds', yet the gateway's answer carries the
    error 'No valid payment authorization found': the settlement reason
    only reaches the analytics cache.  The same holds for every input:
    when the facilitator tier's verify succeeds and its settle fails, the
    gateway reports the failed attempt, with the settlement error reason,
    to the analytics sink and goes on to the native tiers; with truthy
    transaction and chain headers it runs the native on-chain
    verification, and with no transaction, chain or token header it
    returns the error 'No valid payment authorization found'. *)
Theorem settlement_reason_is_dropped :
  (let self := Examples.gateway Examples.payai_settle_fails
                 PaymentAnalytics.record_payment_attempt in
   let r := UnifiedPaymentGateway.verify_payment self Examples.clock
              Examples.request_with_proof Examples.fresh in
   fst (UnifiedPaymentGateway._verify_payai_payment self Examples.clock
          Examples.request_with_proof "proof" Examples.fresh)
   = Py.Return (Auth.invalid "insufficient_funds")
   /\ fst r = Py.Return (Auth.invalid "No valid payment authorization found")
   /\ map at_error_reason (metrics_cache (snd r))
      = [Some "insufficient_funds"]
   /\ fst r <> Py.Return (Auth.invalid "insufficient_funds"))
  /\ (forall (self : UnifiedPaymentGateway.t) (now : Z) (request : Request.t)
          (payment_header : string) (price_usdc : Q)
          (verification : PayAIFacilitator.VerificationResult)
          (settlement : PayAIFacilitator.SettlementResult) (w : World),
     let requirement :=
       PayAIFacilitator.create_payment_requirement
         (UnifiedPaymentGateway.payai self) (Request.path request) price_usdc
         ("Access to " ++ Request.path request) "base" in
     let report :=
       UnifiedPaymentGateway.record_payment_attempt self
         (mkAttempt now (Request.path request) "payai" false None None
            (Some (UnifiedPaymentGateway.or_default
                     (PayAIFacilitator.error_reason settlement)
                     "PayAI settlement failed"))) in
     Request.header request "x-payment" = Some payment_header ->
     payment_header <> "" ->
     UnifiedPaymentGateway._get_endpoint_price self (Request.path request)
     = Some price_usdc ->
     PayAIFacilitator.verify_payment (UnifiedPaymentGateway.payai self)
       payment_header requirement = Py.Return verification ->
     PayAIFacilitator.is_valid verification = true ->
     PayAIFacilitator.settle_payment (UnifiedPaymentGateway.payai self)
       payment_header requirement = Py.Return settlement ->
     PayAIFacilitator.success settlement = false ->
     (forall payment_tx payment_chain,
         Request.header request "x-payment-tx" = Some payment_tx ->
         Request.header request "x-payment-chain" = Some payment_chain ->
         payment_tx <> "" -> payment_chain <> "" ->
         UnifiedPaymentGateway.verify_payment self now request w
         = Py.bind report (fun _ =>
             Py.bind (UnifiedPaymentGateway._verify_native_onchain_payment
                        self now payment_tx payment_chain)
               (fun result =>
                  Py.bind (UnifiedPaymentGateway.record_payment_attempt self
                             (mkAttempt now (Request.path request)
                                "kamiyo_native" (Auth.is_valid result) None
                                (Auth.from_address result)
                                (Auth.error result)))
                    (fun _ =>
                       if Auth.is_valid result then Py.ret result
                       else UnifiedPaymentGateway.token_tier self now
                              request))) w)
     /\ (Request.header request "x-payment-tx" = None ->
         Request.header request "x-payment-chain" = None ->
         Request.header request "x-payment-token" = None ->
         UnifiedPaymentGateway.verify_payment self now request w
         = Py.bind report
             (fun _ => Py.ret
                         (Auth.invalid "No valid payment authorization found"))
             w)).
Proof.
  split; [vm_compute; repeat split; discriminate |].
  intros self now request payment_header price_usdc verification settlement
    w requirement report Hheader Hnonempty Hprice Hverify Hvalid Hsettle
    Hfailed.
  pose proof (settlement_failure_falls_through self now request
                payment_header price_usdc verification settlement
                Hheader Hnonempty Hprice Hverify Hvalid Hsettle Hfailed w)
    as Hfall.
  split.
  - intros payment_tx payment_chain Htx Hchain Htx_ne Hchain_ne.
    rewrite Hfall. subst report. apply bind_ext. intros _ w'.
    unfold UnifiedPaymentGateway.onchain_tier. rewrite Htx, Hchain.
    apply String.eqb_neq in Htx_ne, Hchain_ne.
    now rewrite Htx_ne, Hchain_ne.
  - intros Htx Hchain Htoken.
    rewrite Hfall. subst report. apply bind_ext. intros _ w'.
    unfold UnifiedPaymentGateway.onchain_tier,
      UnifiedPaymentGateway.token_tier.
    now rewrite Htx, Htoken.
Qed.

Lemma settlement_reason_is_dropped_witness :
  UnifiedPaymentGateway.verify_payment
    (Examples.gateway Examples.payai_settle_fails
       PaymentAnalytics.record_payment_attempt)
    Examples.clock Examples.request_with_proof Examples.fresh
  = Py.bind
      (PaymentAnalytics.record_payment_attempt
         (mkAttempt Examples.clock "/exploits" "payai" false None None
            (Some "insufficient_funds")))
      (fun _ => Py.ret (Auth.invalid "No valid payment authorization found"))
      Examples.fresh.
Proof.
  refine (proj2 (proj2 settlement_reason_is_dropped
                   (Examples.gateway Examples.payai_settle_fails
                      PaymentAnalytics.record_payment_attempt)
                   Examples.clock Examples.request_with_proof "proof"
                   (1 # 100)
                   (PayAIFacilitator.mkVerificationResult true "0xpayer" None)
                   (PayAIFacilitator.mkSettlementResult false "0xpayer" ""
                      "base" (Some "insufficient_funds"))
                   Examples.fresh
                   eq_refl _ eq_refl eq_refl eq_refl eq_refl eq_refl)
                eq_refl eq_refl eq_refl).
  discriminate.
Defined.

(** ** Request interceptor: failure policy *)

(** C6.  On a priced endpoint (x402 enabled, the request not skipped, a
    payment configuration found): if evaluating the payment authorization
    raises, dispatch answers with the 402 challenge for the endpoint; if
    the authorization is valid and recording the usage raises, dispatch
    still forwards the request to the handler. *)
Theorem dispatch_failure_policy :
  forall (self : X402Middleware.t) (now : Z) (request : Request.t)
         (w : World) (payment_config : X402Middleware.PaymentConfig),
    X402Config.enabled (X402Middleware.config self) = true ->
    X402Middleware._should_skip_payment_check request = false ->
    X402Middleware._get_payment_config self request = Some payment_config ->
    (forall e w',
        X402Middleware.authorize self now request w = (Py.Raise e, w') ->
        exists content headers,
          X402Middleware.dispatch self now request w
          = (Py.Return (X402Middleware.JSONResponse 402 content headers), w')
          /\ X402Middleware._create_402_response self request payment_config
             = X402Middleware.JSONResponse 402 content headers)
    /\ (forall auth w' e w'',
           X402Middleware.authorize self now request w
           = (Py.Return (Some auth), w') ->
           Auth.is_valid auth = true ->
           X402Middleware.track_usage self now request payment_config auth w'
           = (Py.Raise e, w'') ->
           X402Middleware.dispatch self now request w
           = (Py.Return X402Middleware.Forwarded, w'')).
Proof.
  intros self now request w payment_config Henabled Hskip Hconfig.
  assert (Hstep :
    X402Middleware.dispatch self now request w
    = match X402Middleware.authorize self now request w with
      | (Py.Raise _, w') =>
          (Py.Return
             (X402Middleware._create_402_response self request payment_config),
           w')
      | (Py.Return (Some auth), w') =>
          if Auth.is_valid auth then
            match X402Middleware.track_usage self now request payment_config
                    auth w' with
            | (_, w'') => (Py.Return X402Middleware.Forwarded, w'')
            end
          else
            (Py.Return
               (X402Middleware._create_402_response self request
                  payment_config),
             w')
      | (Py.Return None, w') =>
          (Py.Return
             (X402Middleware._create_402_response self request payment_config),
           w')
      end).
  { unfold X402Middleware.dispatch.
    rewrite Henabled, Hskip, Hconfig. cbn [negb].
    unfold Py.try_except at 1, Py.bind at 1, Py.attempt.
    destruct (X402Middleware.authorize self now request w)
      as [[[auth |] | e] w']; try reflexivity.
    destruct (Auth.is_valid auth); [| reflexivity].
    unfold Py.bind, Py.try_except.
    destruct (X402Middleware.track_usage self now request payment_config
                auth w') as [[[] | e] w'']; reflexivity. }
  rewrite Hstep. split.
  - intros e w' Hauth. rewrite Hauth.
    do 2 eexists. split; reflexivity.
  - intros auth w' e w'' Hauth Hvalid Husage.
    now rewrite Hauth, Hvalid, Husage.
Qed.

Lemma dispatch_failure_policy_witness :
  (exists content headers,
      X402Middleware.dispatch
        (Examples.middleware Examples.payai_settles Examples.analytics_down)
        Examples.clock Examples.request_with_proof Examples.fresh
      = (Py.Return (X402Middleware.JSONResponse 402 content headers),
         snd (X402Middleware.authorize
                (Examples.middleware Examples.payai_settles
                   Examples.analytics_down)
                Examples.clock Examples.request_with_proof Examples.fresh)))
  /\ X402Middleware.dispatch
       (Examples.middleware Examples.payai_settles
          PaymentAnalytics.record_payment_attempt)
       Examples.clock Examples.request_with_proof Examples.exhausted
     = (Py.Return X402Middleware.Forwarded,
        snd (X402Middleware.authorize
               (Examples.middleware Examples.payai_settles
                  PaymentAnalytics.record_payment_attempt)
               Examples.clock Examples.request_with_proof
               Examples.exhausted)).
Proof.
  split.
  - destruct (proj1 (dispatch_failure_policy
                       (Examples.middleware Examples.payai_settles
                          Examples.analytics_down)
                       Examples.clock Examples.request_with_proof
                       Examples.fresh
                       (X402Middleware.mkPaymentConfig (1 # 100) "/exploits"
                                                       "GET")
                       eq_refl eq_refl eq_refl)
                    (Py.Exception "analytics sink unavailable")
                    _ eq_refl)
      as (content & headers & Hdispatch & _).
    exists content, headers. exact Hdispatch.
  - refine (proj2 (dispatch_failure_policy
                     (Examples.middleware Examples.payai_settles
                        PaymentAnalytics.record_payment_attempt)
                     Examples.clock Examples.request_with_proof
                     Examples.exhausted
                     (X402Middleware.mkPaymentConfig (1 # 100) "/exploits"
                                                     "GET")
                     eq_refl eq_refl eq_refl)
                  _ _
                  (Py.ValueError "Failed to update payment usage for payment 1")
                  _ eq_refl eq_refl eq_refl).
Defined.

(** * Further properties *)

(** ** Comparisons on rationals *)

Section Comparisons.
Local Open Scope Q_scope.

Lemma Qlt_bool_true a b : Py.Qlt_bool a b = true <-> a < b.
Proof.
  unfold Py.Qlt_bool. rewrite negb_true_iff.
  split; intros H.
  - apply Qnot_le_lt. intros Hle. apply Qle_bool_iff in Hle. congruence.
  - destruct (Qle_bool b a) eqn:E; [| reflexivity].
    apply Qle_bool_iff in E. lra.
Qed.

End Comparisons.

(** ** Chain verifier: what a valid result guarantees *)








(** ** Order of binary64 numbers *)

Section FloatOrder.
Local Open Scope float_scope.



End FloatOrder.

(** ** Risk scorer: the factor scores *)

Section FactorScores.









End FactorScores.

(** ** Risk scorer: the overall score *)

Section OverallScore.





End OverallScore.
